(** * UniMate API server: the retrieval-augmented answering orchestrator

    A shallow embedding of [api_server.py]: the session store, the
    conversation summary, the multi-collection search aggregator and the
    [/api/query] handler, followed by the properties of the design
    document that concern them.

    Conventions of the embedding.
    - A Python [str] is a [string]; a character is a code point below 256.
    - A relevance score (a finite Python float) is the rational number it
      denotes, [Q]; the code only compares scores and takes maxima.
    - A Python [dict] whose iteration order is observable is an
      association list in insertion order ([Dict]); the process-wide
      [sessions] dict, which is only read and written by key, is a [gmap].
    - An exception is a value [Raise e]; the handler threads the mutable
      process state ([World]) explicitly, and state reached before a
      raise is kept, as in Python. *)

From Stdlib Require Import QArith ZArith String Ascii List Lia Bool.
From Stdlib Require Import Sorting.Sorted Sorting.Permutation.
From stdpp Require Import base option list gmap strings pretty.

Open Scope string_scope.

(** ** Python string primitives *)

Module PyStr.

(** [str.isspace] on one character, for code points below 256:
    TAB..CR, FS..US, SPACE, NEL and NBSP. *)
Definition is_space (c : ascii) : bool :=
  let n := nat_of_ascii c in
  ((9 <=? n)%nat && (n <=? 13)%nat) || ((28 <=? n)%nat && (n <=? 32)%nat)
  || (n =? 133)%nat || (n =? 160)%nat.

Fixpoint lstrip (s : string) : string :=
  match s with
  | String c r => if is_space c then lstrip r else s
  | EmptyString => EmptyString
  end.

(** [s.rstrip()]: a character is dropped when it is white space and
    everything after it has been dropped. *)
Fixpoint rstrip (s : string) : string :=
  match s with
  | String c r =>
      match rstrip r with
      | EmptyString => if is_space c then EmptyString else String c EmptyString
      | r' => String c r'
      end
  | EmptyString => EmptyString
  end.

(** [s.strip()] *)
Definition strip (s : string) : string := rstrip (lstrip s).

(** [s.startswith(p)] *)
Fixpoint startswith (p s : string) : bool :=
  match p, s with
  | EmptyString, _ => true
  | String a p', String b s' => if Ascii.eqb a b then startswith p' s' else false
  | String _ _, EmptyString => false
  end.

(** [p in s] *)
Fixpoint contains (p s : string) : bool :=
  startswith p s
  || match s with
     | String _ s' => contains p s'
     | EmptyString => false
     end.

(** [s[:n]] for [n >= 0] *)
Fixpoint take (n : nat) (s : string) : string :=
  match n, s with
  | S n', String c r => String c (take n' r)
  | _, _ => EmptyString
  end.

(** [sep.join(parts)] *)
Fixpoint join (sep : string) (parts : list string) : string :=
  match parts with
  | [] => EmptyString
  | [p] => p
  | p :: rest => p ++ sep ++ join sep rest
  end.

(** [s.endswith(c)] for a single character [c] *)
Fixpoint ends_with_char (c : ascii) (s : string) : bool :=
  match s with
  | EmptyString => false
  | String a EmptyString => Ascii.eqb a c
  | String _ r => ends_with_char c r
  end.

(** Python truthiness of a string *)
Definition truthy (s : string) : bool :=
  match s with EmptyString => false | _ => true end.

End PyStr.

(** ** Python list primitives *)

Module PyList.

(** [l[-n:]] for [n > 0]: the last [n] elements, all of [l] when it is
    shorter. *)
Definition last_n {A} (n : nat) (l : list A) : list A :=
  drop (length l - n) l.

(** [l[:k]] for any integer [k]: a negative [k] counts from the end. *)
Definition slice_to {A} (k : Z) (l : list A) : list A :=
  if (0 <=? k)%Z then take (Z.to_nat k) l
  else take (Z.to_nat (Z.of_nat (length l) + k)) l.

Definition truthy {A} (l : list A) : bool :=
  match l with [] => false | _ => true end.

End PyList.

(** ** Sessions and messages *)

Inductive Role := user | assistant.

Record Message := mkMessage {
  role : Role;
  content : string;
  timestamp : string
}.

Record Session := mkSession {
  session_id : string;
  messages : list Message;
  collection_id : option string;
  created_at : string
}.

Definition role_label (r : Role) : string :=
  match r with user => "User" | assistant => "Assistant" end.

(** [conversation_summary(session)] *)
Definition conversation_summary (session : Session) : string :=
  let msgs := messages session in
  if negb (PyList.truthy msgs) then "No prior conversation."
  else
    let last_n := PyList.last_n 10 msgs in
    let summary_parts :=
      map (fun msg => role_label (role msg) ++ ": " ++ PyStr.take 100 (content msg))
          last_n in
    PyStr.join " | " summary_parts.

(** ** Exceptions, dictionaries and scores *)

(** The outcome of a call that may raise: a value, or the exception's
    message. *)
Inductive Res (A : Type) : Type :=
| Ok (a : A)
| Raise (e : string).
Arguments Ok {A} a.
Arguments Raise {A} e.

(** A Python [dict] with string keys, in insertion order. *)
Abbreviation Dict V := (list (string * V)) (only parsing).

Module PyDict.
Section Ops.
Context {V : Type}.

(** [d.get(k)] *)
Fixpoint get (k : string) (d : Dict V) : option V :=
  match d with
  | [] => None
  | (k', v) :: r => if String.eqb k k' then Some v else get k r
  end.

(** [k in d] *)
Definition mem (k : string) (d : Dict V) : bool :=
  match get k d with Some _ => true | None => false end.

(** [d[k] = v]: an existing key keeps its position, a new key goes last. *)
Fixpoint set (k : string) (v : V) (d : Dict V) : Dict V :=
  match d with
  | [] => [(k, v)]
  | (k', v') :: r =>
      if String.eqb k k' then (k', v) :: r else (k', v') :: set k v r
  end.

(** [list(d.keys())] *)
Definition keys (d : Dict V) : list string := map fst d.

End Ops.
End PyDict.

Abbreviation Score := Q (only parsing).

(** [a < b] on scores *)
Definition score_ltb (a b : Score) : bool := negb (Qle_bool b a).

(** Python's [max(a, b)]: [b] only when it is strictly greater. *)
Definition py_max (a b : Score) : Score := if score_ltb a b then b else a.

(** ** Collections on disk *)

Record ChunkMeta := mkChunkMeta {
  doc : string;
  page : Z;
  text : string
}.

(** A loaded [VectorStore], as far as the server uses it for one request:
    its [meta] dict and the outcome of its two search calls. *)
Record VectorStore := mkVectorStore {
  meta : Dict ChunkMeta;
  search_hybrid : string -> Z -> Z -> Res (list (string * Score));
  top_dense_score : string -> Res Score
}.

(** One entry of [os.listdir(VS_BASE)]. *)
Record DirEntry := mkDirEntry {
  folder_name : string;
  is_dir : bool;
  has_meta_json : bool
}.

(** [{"id": ..., "path": ...}] *)
Record CollectionRef := mkCollectionRef {
  coll_id : string;
  coll_path : string
}.

(** [os.path.join(a, b)] on POSIX. *)
Definition os_path_join (a b : string) : string :=
  if PyStr.startswith "/" b then b
  else if negb (PyStr.truthy a) then b
  else if PyStr.ends_with_char "/" a then a ++ b
  else a ++ "/" ++ b.

(** One source entry of a response, as [make_context] lists them. *)
Record Source := mkSource {
  source_doc : string;
  source_page : Z
}.

(** ** The environment of the server

    Everything [api_server.py] imports from [core.*] and from the
    outside world is a field of [Env]: the helpers of [core.retrieval],
    the constants of [core.config], the language model, the on-disk
    collections, and the sources of fresh ids and of time. The language
    model, [uuid.uuid4] and [datetime.now] are not functions of their
    arguments, so each takes the number of earlier calls. *)
Record Env := mkEnv {
  VS_BASE : string;
  LOW_CONFIDENCE_THRESH : Score;
  TOPK_DENSE : Z;
  TOPK_FINAL : Z;
  (** [None] when [VS_BASE] does not exist, else its directory listing *)
  vs_base_listing : option (list DirEntry);
  (** [VectorStore(embedder)] followed by [vs.load(path)] *)
  vs_load : string -> Res VectorStore;
  is_generic_query : string -> Res bool;
  make_context :
    list (string * Score) -> Dict ChunkMeta -> Res (string * list Z * list Source);
  build_prompt : string -> string -> string -> bool -> Res string;
  add_inline_citations : string -> list Z -> Res string;
  minimal_extractive_fallback :
    list (string * Score) -> Dict ChunkMeta -> Res string;
  llm_generate : nat -> string -> Res string;
  uuid4 : nat -> string;
  now_isoformat : nat -> string
}.

(** ** The search aggregator *)

(** [get_all_collections()] *)
Definition get_all_collections (E : Env) : list CollectionRef :=
  match vs_base_listing E with
  | None => []
  | Some entries =>
      fold_left
        (fun collections entry =>
           let folder_path := os_path_join (VS_BASE E) (folder_name entry) in
           if is_dir entry then
             if has_meta_json entry then
               (collections ++ [mkCollectionRef (folder_name entry) folder_path])%list
             else collections
           else collections)
        entries []
  end.

(** The three accumulators of [search_all_collections]. *)
Record AggState := mkAggState {
  all_results : list (string * Score);
  combined_meta : Dict ChunkMeta;
  max_score : Score
}.

(** [f"{collection['id']}::{chunk_id}"] *)
Definition global_id (collection : CollectionRef) (chunk_id : string) : string :=
  coll_id collection ++ "::" ++ chunk_id.

(** The body of [for chunk_id, score in results]. *)
Definition add_result (collection : CollectionRef) (vs : VectorStore)
    (st : AggState) (r : string * Score) : AggState :=
  let '(chunk_id, score) := r in
  let gid := global_id collection chunk_id in
  mkAggState
    (all_results st ++ [(gid, score)])%list
    (match PyDict.get chunk_id (meta vs) with
     | Some m => PyDict.set gid m (combined_meta st)
     | None => combined_meta st
     end)
    (max_score st).

(** The body of [for collection in all_collections], with its
    [try ... except Exception: continue]: what was accumulated before a
    raise stays. *)
Definition search_collection (E : Env) (query : string) (topk_dense final_k : Z)
    (st : AggState) (collection : CollectionRef) : AggState :=
  match vs_load E (coll_path collection) with
  | Raise _ => st
  | Ok vs =>
      match search_hybrid vs query topk_dense final_k with
      | Raise _ => st
      | Ok results =>
          let st1 := fold_left (add_result collection vs) results st in
          if PyList.truthy results then
            match top_dense_score vs query with
            | Raise _ => st1
            | Ok top_score =>
                mkAggState (all_results st1) (combined_meta st1)
                           (py_max (max_score st1) top_score)
            end
          else st1
      end
  end.

(** [all_results.sort(key=lambda x: x[1], reverse=True)]: Python's sort is
    stable, also under [reverse=True]; the stable descending sort is
    insertion from the right, each element going before the first one
    whose score is not strictly greater. *)
Fixpoint insert_desc (x : string * Score) (l : list (string * Score))
    : list (string * Score) :=
  match l with
  | [] => [x]
  | y :: r => if score_ltb (snd x) (snd y) then y :: insert_desc x r
              else x :: y :: r
  end.

Fixpoint sort_desc (l : list (string * Score)) : list (string * Score) :=
  match l with
  | [] => []
  | x :: r => insert_desc x (sort_desc r)
  end.

(** The accumulators after the loop over all collections. *)
Definition collect (E : Env) (query : string) (topk_dense final_k : Z) : AggState :=
  fold_left (search_collection E query topk_dense final_k)
            (get_all_collections E)
            (mkAggState [] [] 0%Q).

(** [search_all_collections(query, embedder, topk_dense, final_k)] *)
Definition search_all_collections (E : Env) (query : string)
    (topk_dense final_k : Z)
    : list (string * Score) * Dict ChunkMeta * Score :=
  let all_collections := get_all_collections E in
  if negb (PyList.truthy all_collections) then ([], [], 0%Q)
  else
    let st := collect E query topk_dense final_k in
    let top_results := PyList.slice_to final_k (sort_desc (all_results st)) in
    (top_results, combined_meta st, max_score st).

(** ** Process state and the handler monad *)

(** What a request does to the outside: it runs the search over all
    collections, and it calls the language model with a prompt. *)
Inductive Event :=
| EvSearch (query : string)
| EvGenerate (prompt : string).

Record World := mkWorld {
  sessions : gmap string Session;
  uuid_calls : nat;
  clock_reads : nat;
  llm_calls : nat;
  trace : list Event
}.

(** A computation that reads and writes the process state and may raise;
    the state at the raise is returned with it. *)
Definition M (A : Type) : Type := World -> Res A * World.

Definition ret {A} (a : A) : M A := fun w => (Ok a, w).

Definition bind {A B} (m : M A) (k : A -> M B) : M B :=
  fun w =>
    match m w with
    | (Ok a, w') => k a w'
    | (Raise e, w') => (Raise e, w')
    end.

Definition lift {A} (r : Res A) : M A := fun w => (r, w).

Definition raise {A} (e : string) : M A := lift (Raise e).

Declare Scope handler_scope.
Delimit Scope handler_scope with handler.
Notation "x <- m ;; k" := (bind m (fun x => k))
  (at level 100, m at next level, right associativity) : handler_scope.

Section Handler.
Variable E : Env.

(** [datetime.now().isoformat()] *)
Definition now : M string := fun w =>
  (Ok (now_isoformat E (clock_reads w)),
   mkWorld (sessions w) (uuid_calls w) (S (clock_reads w)) (llm_calls w) (trace w)).

(** [llm.generate(prompt)] *)
Definition generate (prompt : string) : M string := fun w =>
  (llm_generate E (llm_calls w) prompt,
   mkWorld (sessions w) (uuid_calls w) (clock_reads w) (S (llm_calls w))
           (trace w ++ [EvGenerate prompt])%list).

(** The call of [search_all_collections] made by [query]. *)
Definition search (user_query : string)
    : M (list (string * Score) * Dict ChunkMeta * Score) := fun w =>
  (Ok (search_all_collections E user_query (TOPK_DENSE E) (TOPK_FINAL E)),
   mkWorld (sessions w) (uuid_calls w) (clock_reads w) (llm_calls w)
           (trace w ++ [EvSearch user_query])%list).

(** [session_id in sessions] *)
Definition known (sid : string) (w : World) : bool :=
  match sessions w !! sid with Some _ => true | None => false end.

(** [get_or_create_session(session_id)]: the id of the session it
    returns; the session itself is [sessions[id]]. *)
Definition get_or_create_session (session_id : option string) (w : World)
    : string * World :=
  match session_id with
  | Some sid =>
      if PyStr.truthy sid && known sid w then (sid, w)
      else
        let new_id := uuid4 E (uuid_calls w) in
        let created := now_isoformat E (clock_reads w) in
        (new_id,
         mkWorld (<[new_id := mkSession new_id [] None created]> (sessions w))
                 (S (uuid_calls w)) (S (clock_reads w)) (llm_calls w) (trace w))
  | None =>
      let new_id := uuid4 E (uuid_calls w) in
      let created := now_isoformat E (clock_reads w) in
      (new_id,
       mkWorld (<[new_id := mkSession new_id [] None created]> (sessions w))
               (S (uuid_calls w)) (S (clock_reads w)) (llm_calls w) (trace w))
  end.

Definition push_message (msg : Message) (s : Session) : Session :=
  mkSession (session_id s) (messages s ++ [msg])%list (collection_id s) (created_at s).

(** [session["messages"].append({"role": r, "content": c, "timestamp":
    datetime.now().isoformat()})], where [session] is [sessions[sid]]. *)
Definition append_message (sid : string) (r : Role) (c : string) (w : World)
    : World :=
  let msg := mkMessage r c (now_isoformat E (clock_reads w)) in
  mkWorld (alter (push_message msg) sid (sessions w))
          (uuid_calls w) (S (clock_reads w)) (llm_calls w) (trace w).

(** Reading the local variable [session]. *)
Definition read_session (sid : string) : M Session := fun w =>
  match sessions w !! sid with
  | Some s => (Ok s, w)
  | None => (Raise "KeyError", w)
  end.

End Handler.

(** ** The [/api/query] handler *)

Record Request := mkRequest {
  req_session_id : option string;
  req_query : option string
}.

Inductive Response :=
| JsonError (status : Z) (error : string)
| JsonAnswer (answer : string) (sources : list Source) (used_documents : bool)
             (timestamp : string).

Definition LLM_ERROR : string := "__LLM_ERROR__".
Definition NOT_FOUND_MARKER : string := "Not found in the document".
Definition APOLOGY : string := "Sorry, I couldn't generate an answer right now.".

(** The local variables of [query] once the grounded-or-general decision
    is taken; [combined_meta] is bound only when the search ran. *)
Record Retrieval := mkRetrieval {
  context_block : string;
  pages : list Z;
  source_meta : list Source;
  use_general : bool;
  search_meta : option (Dict ChunkMeta)
}.

Section Query.
Variable E : Env.
Local Open Scope handler_scope.

(** Lines 259-296: classify the query, search, decide. *)
Definition retrieve (user_query : string) : M Retrieval :=
  generic <- lift (is_generic_query E user_query) ;;
  if negb generic then
    found <- search E user_query ;;
    let '(fused, combined_meta, max_score) := found in
    if PyList.truthy fused && PyList.truthy combined_meta then
      ctx <- lift (make_context E fused combined_meta) ;;
      let '(context_block, pages, source_meta) := ctx in
      ret (mkRetrieval context_block pages source_meta
             (score_ltb max_score (LOW_CONFIDENCE_THRESH E)
              || (length source_meta =? 0)%nat)
             (Some combined_meta))
    else
      ret (mkRetrieval "" [] [] true (Some combined_meta))
  else
    ret (mkRetrieval "" [] [] generic None).

(** Lines 305-320: from the raw answer to the answer and the pages
    that are left for citation. *)
Definition settle (user_query conv_summary : string) (r : Retrieval)
    (raw_answer : string) : M (string * list Z) :=
  if PyStr.startswith LLM_ERROR raw_answer then
    if negb (use_general r) && PyList.truthy (source_meta r) then
      match search_meta r with
      | None => raise "UnboundLocalError"
      | Some combined_meta =>
          match PyDict.keys combined_meta with
          | [] => raise "IndexError"
          | first_key :: _ =>
              final_answer <-
                lift (minimal_extractive_fallback E [(first_key, 0%Q)] combined_meta) ;;
              ret (final_answer, pages r)
          end
      end
    else ret (APOLOGY, pages r)
  else
    let final_answer := PyStr.strip raw_answer in
    if negb (use_general r)
       && (PyStr.contains NOT_FOUND_MARKER final_answer
           || (String.length final_answer <? 4)%nat) then
      prompt <- lift (build_prompt E user_query conv_summary (context_block r) true) ;;
      alt <- generate E prompt ;;
      if negb (PyStr.startswith LLM_ERROR alt) then ret (PyStr.strip alt, [])
      else ret (final_answer, pages r)
    else ret (final_answer, pages r).

(** Lines 322-324 *)
Definition cite (r : Retrieval) (final_answer : string) (pages : list Z)
    : M string :=
  if negb (use_general r) && PyList.truthy pages then
    lift (add_inline_citations E final_answer pages)
  else ret final_answer.

(** The body of the [try] block of [query]. *)
Definition answer (sid user_query : string) : M Response :=
  session <- read_session sid ;;
  let conv_summary := conversation_summary session in
  r <- retrieve user_query ;;
  prompt <- lift (build_prompt E user_query conv_summary (context_block r)
                               (use_general r)) ;;
  raw_answer <- generate E prompt ;;
  settled <- settle user_query conv_summary r raw_answer ;;
  final_answer <- cite r (fst settled) (snd settled) ;;
  _ <- (fun w => (Ok tt, append_message E sid assistant final_answer w)) ;;
  ts <- now E ;;
  ret (JsonAnswer final_answer
         (if negb (use_general r) then source_meta r else [])
         (negb (use_general r)) ts).

(** [query()], on the JSON body [req]. *)
Definition query (req : Request) (w : World) : Response * World :=
  let user_query :=
    PyStr.strip (match req_query req with Some q => q | None => "" end) in
  match req_session_id req with
  | None => (JsonError 400 "session_id required", w)
  | Some sid_given =>
      if negb (PyStr.truthy sid_given) then
        (JsonError 400 "session_id required", w)
      else if negb (PyStr.truthy user_query) then
        (JsonError 400 "query cannot be empty", w)
      else
        let '(sid, w1) := get_or_create_session E (Some sid_given) w in
        let w2 := append_message E sid user user_query w1 in
        match answer sid user_query w2 with
        | (Ok response, w3) => (response, w3)
        | (Raise e, w3) => (JsonError 500 e, w3)
        end
  end.

End Query.

(** ** The design document's wording, as definitions *)

(** The conversation summary as the design document describes it, written
    without the helpers of the code: the label of a role, a text cut to
    100 characters, texts put one after the other with a separator
    between them, and the last ten messages of the log in temporal
    order; a fixed marker for an empty log. *)
Definition summary_label (r : Role) : string :=
  match r with
  | user => "User"
  | assistant => "Assistant"
  end.

Definition cut_to (n : nat) (s : string) : string :=
  string_of_list_ascii (take n (list_ascii_of_string s)).

Definition separated (sep : string) (texts : list string) : string :=
  match texts with
  | [] => ""
  | first :: others => fold_left (fun so_far t => so_far ++ sep ++ t) others first
  end.

Definition summary_text (log : list Message) : string :=
  match log with
  | [] => "No prior conversation."
  | _ =>
      separated " | "
        (map (fun m => summary_label (role m) ++ ": " ++ cut_to 100 (content m))
             (rev (take 10 (rev log))))
  end.

(** The order the design document asks of two neighbours of the merged
    list: score descending, equal scores by ascending global id. *)
Definition claimed_before (a b : string * Score) : bool :=
  score_ltb (snd b) (snd a)
  || (Qeq_bool (snd a) (snd b) && String.leb (fst a) (fst b)).

Fixpoint claimed_order (l : list (string * Score)) : bool :=
  match l with
  | a :: r => match r with
              | b :: _ => claimed_before a b && claimed_order r
              | [] => true
              end
  | [] => true
  end.

(** Score descending. *)
Definition desc_by_score (l : list (string * Score)) : Prop :=
  StronglySorted (fun a b => (snd b <= snd a)%Q) l.

(** Candidates of equal score stand in [sorted] as they stand in [l]. *)
Definition ties_keep_order (l sorted : list (string * Score)) : Prop :=
  forall s : Score,
    filter (fun x => Qeq_bool (snd x) s = true) sorted
    = filter (fun x => Qeq_bool (snd x) s = true) l.

(** [m] is the value of a greatest element of [l]. *)
Definition is_max_of (m : Score) (l : list Score) : Prop :=
  (exists y, In y l /\ (y == m)%Q) /\ forall x, In x l -> (x <= m)%Q.

(** The top score a collection contributes to the confidence signal: it
    has to load, its search has to return at least one result, and the
    top-score call has to return. *)
Definition observed_top_score (E : Env) (query : string) (topk_dense final_k : Z)
    (collection : CollectionRef) : option Score :=
  match vs_load E (coll_path collection) with
  | Ok vs =>
      match search_hybrid vs query topk_dense final_k with
      | Ok (_ :: _) =>
          match top_dense_score vs query with
          | Ok top_score => Some top_score
          | Raise _ => None
          end
      | _ => None
      end
  | Raise _ => None
  end.

Definition observed_top_scores (E : Env) (query : string) (topk_dense final_k : Z)
    : list Score :=
  omap (observed_top_score E query topk_dense final_k) (get_all_collections E).

(** The candidates a collection contributes to the merge, with their
    local chunk ids. *)
Definition collection_results (E : Env) (query : string) (topk_dense final_k : Z)
    (collection : CollectionRef) : option (VectorStore * list (string * Score)) :=
  match vs_load E (coll_path collection) with
  | Ok vs =>
      match search_hybrid vs query topk_dense final_k with
      | Ok results => Some (vs, results)
      | Raise _ => None
      end
  | Raise _ => None
  end.

(** All candidates of all collections, under their global ids, in the
    order of the directory listing. *)
Definition collected_candidates (E : Env) (query : string) (topk_dense final_k : Z)
    : list (string * Score) :=
  flat_map
    (fun c =>
       match collection_results E query topk_dense final_k c with
       | Some (_, results) => map (fun r => (global_id c (fst r), snd r)) results
       | None => []
       end)
    (get_all_collections E).

(** What the loop of [search_all_collections] maintains: every key of the
    mapping is the id of a collected candidate, and no key is repeated. *)
Definition agg_inv (st : AggState) : Prop :=
  (forall g, In g (PyDict.keys (combined_meta st)) ->
             In g (map fst (all_results st)))
  /\ List.NoDup (PyDict.keys (combined_meta st)).


(** What the search returns for a query: the ranked candidates, the
    metadata mapping and the confidence signal. *)
Definition returned_candidates (E : Env) (user_query : string)
    : list (string * Score) :=
  fst (fst (search_all_collections E user_query (TOPK_DENSE E) (TOPK_FINAL E))).

Definition returned_metadata (E : Env) (user_query : string) : Dict ChunkMeta :=
  snd (fst (search_all_collections E user_query (TOPK_DENSE E) (TOPK_FINAL E))).

Definition confidence_signal (E : Env) (user_query : string) : Score :=
  snd (search_all_collections E user_query (TOPK_DENSE E) (TOPK_FINAL E)).

(** A request passes the input validation of [query]. *)
Definition valid_request (req : Request) : bool :=
  match req_session_id req with
  | Some sid => PyStr.truthy sid
  | None => false
  end
  && PyStr.truthy (PyStr.strip (match req_query req with Some q => q | None => "" end)).

Definition query_text (req : Request) : string :=
  PyStr.strip (match req_query req with Some q => q | None => "" end).

Definition is_generate (e : Event) : bool :=
  match e with EvGenerate _ => true | EvSearch _ => false end.

Definition is_search (e : Event) : bool :=
  match e with EvSearch _ => true | EvGenerate _ => false end.

(** The answer text of a grounded attempt calls for the retry. *)
Definition unusable (final_answer : string) : bool :=
  PyStr.contains NOT_FOUND_MARKER final_answer
  || (String.length final_answer <? 4)%nat.

(** The session a valid request works on, the process state once its
    user message is logged, and the conversation summary taken then. *)
Definition request_session (E : Env) (req : Request) (w : World) : string :=
  fst (get_or_create_session E (req_session_id req) w).

Definition world_with_user_message (E : Env) (req : Request) (w : World) : World :=
  append_message E (request_session E req w) user (query_text req)
                 (snd (get_or_create_session E (req_session_id req) w)).

Definition request_summary (E : Env) (req : Request) (w : World) : string :=
  match sessions (world_with_user_message E req w) !! request_session E req w with
  | Some s => conversation_summary s
  | None => ""
  end.

(** The process state after one more call of the language model. *)
Definition after_generate (prompt : string) (w : World) : World :=
  mkWorld (sessions w) (uuid_calls w) (clock_reads w) (S (llm_calls w))
          (trace w ++ [EvGenerate prompt])%list.

(** The process state after the assistant message is logged and the
    response is stamped. *)
Definition after_reply (E : Env) (sid final_answer : string) (w : World) : World :=
  let w' := append_message E sid assistant final_answer w in
  mkWorld (sessions w') (uuid_calls w') (S (clock_reads w')) (llm_calls w') (trace w').

(** The events a computation adds to the trace contain at most [n] calls
    of the language model. *)
Definition generates_at_most {A} (n : nat) (m : M A) : Prop :=
  forall w, exists evs,
    trace (snd (m w)) = (trace w ++ evs)%list
    /\ length (filter (fun e => is_generate e = true) evs) <= n.

(** A computation leaves the session store alone. *)
Definition keeps_sessions {A} (m : M A) : Prop :=
  forall w, sessions (snd (m w)) = sessions w.

(** The decision taken for a valid request, the process state once it is
    taken, and the prompt of the first generation. *)
Definition retrieval_of (E : Env) (req : Request) (w : World) : Retrieval :=
  match retrieve E (query_text req) (world_with_user_message E req w) with
  | (Ok r, _) => r
  | (Raise _, _) => mkRetrieval "" [] [] true None
  end.

Definition world_after_retrieval (E : Env) (req : Request) (w : World) : World :=
  snd (retrieve E (query_text req) (world_with_user_message E req w)).

Definition first_prompt (E : Env) (req : Request) (w : World) : string :=
  match build_prompt E (query_text req) (request_summary E req w)
                     (context_block (retrieval_of E req w))
                     (use_general (retrieval_of E req w)) with
  | Ok prompt => prompt
  | Raise _ => ""
  end.

(** ** Sample environments

    [core/retrieval.py], [core/config.py], [core/vector_store.py] and
    [core/llm.py] are not part of the sources at hand. The theorems below
    hold for every [Env]; the concrete runs use the following instance
    of each helper. *)

(** Modelled from the spec: [core.retrieval.make_context] is missing; the
    prompt carries the "concatenated chunk texts of the ranked
    candidates", citations reference "the page numbers of the
    contributing chunks", and the response lists their sources. *)
Definition spec_make_context (fused : list (string * Score))
    (combined_meta : Dict ChunkMeta) : Res (string * list Z * list Source) :=
  let chunks := omap (fun c => PyDict.get (fst c) combined_meta) fused in
  Ok (PyStr.join " " (map text chunks),
      map page chunks,
      map (fun m => mkSource (doc m) (page m)) chunks).

(** Modelled from the spec: [core.retrieval.build_prompt] is missing; a
    generic prompt is "query + conversation summary, no evidence", an
    evidence-bearing prompt adds the chunk texts. *)
Definition spec_build_prompt (user_query conv_summary context_block : string)
    (general : bool) : Res string :=
  Ok (if general then "GENERAL " ++ user_query ++ " [" ++ conv_summary ++ "]"
      else "DOCUMENT " ++ user_query ++ " [" ++ conv_summary ++ "] "
           ++ context_block).

(** Modelled from the spec: [core.retrieval.add_inline_citations] is
    missing; it "rewrites the answer text to insert inline markers
    referencing the page numbers of the contributing chunks". *)
Definition spec_add_inline_citations (final_answer : string) (pages : list Z)
    : Res string :=
  Ok (fold_left (fun a p => a ++ " [p." ++ pretty p ++ "]") pages final_answer).

(** Modelled from the spec: [core.retrieval.minimal_extractive_fallback]
    is missing; it is "a minimal extractive answer built directly from
    the single highest-ranked chunk's text (no generation)", the chunk
    being the first of the candidates it is given. *)
Definition spec_minimal_extractive_fallback (fused : list (string * Score))
    (combined_meta : Dict ChunkMeta) : Res string :=
  match fused with
  | (gid, _) :: _ =>
      match PyDict.get gid combined_meta with
      | Some m => Ok (text m)
      | None => Raise "KeyError"
      end
  | [] => Raise "IndexError"
  end.

(** Modelled from the spec: [core.retrieval.is_generic_query] is missing;
    it recognises "greetings, meta-questions about the assistant
    itself". *)
Definition spec_is_generic_query (user_query : string) : Res bool :=
  Ok (String.eqb user_query "hello" || String.eqb user_query "who are you?").

(** A vector store whose search returns the first [final_k] of a fixed
    ranked list, whatever the query. *)
Definition fixed_store (m : Dict ChunkMeta) (ranked : list (string * Score))
    (top : Score) : VectorStore :=
  mkVectorStore m (fun _ _ final_k => Ok (PyList.slice_to final_k ranked))
                (fun _ => Ok top).

Definition sample_uuid4 (n : nat) : string := "5f0c1b1e-7a52-4c1d-9b7e-" ++ pretty n.
Definition sample_now (n : nat) : string := "2025-01-01T00:00:00." ++ pretty n.

(** An environment over a directory listing, its stores, a language
    model and a [TOPK_FINAL]. *)
Definition sample_env (listing : option (list DirEntry))
    (stores : string -> Res VectorStore) (llm : nat -> string -> Res string)
    (final_k : Z) : Env :=
  mkEnv "data/vector_store" (3 # 10) 20 final_k listing stores
        spec_is_generic_query spec_make_context spec_build_prompt
        spec_add_inline_citations spec_minimal_extractive_fallback
        llm sample_uuid4 sample_now.

Definition empty_world : World := mkWorld ∅ 0 0 0 [].

(** Two collections, listed [beta] then [alpha]; each holds one chunk
    ["0"]. *)
Definition two_listing : option (list DirEntry) :=
  Some [mkDirEntry "beta" true true; mkDirEntry "alpha" true true].

Definition two_stores (score_beta score_alpha : Score) (path : string)
    : Res VectorStore :=
  if String.eqb path "data/vector_store/beta" then
    Ok (fixed_store [("0", mkChunkMeta "beta.pdf" 7 "Shipping takes 3 days.")]
                    [("0", score_beta)] score_beta)
  else if String.eqb path "data/vector_store/alpha" then
    Ok (fixed_store [("0", mkChunkMeta "alpha.pdf" 2 "Refunds are processed within 14 days.")]
                    [("0", score_alpha)] score_alpha)
  else Raise "FileNotFoundError".

(** A language model that answers every prompt with the same text. *)
Definition constant_llm (reply : string) (n : nat) (prompt : string) : Res string :=
  Ok reply.

(** A language model whose first answer is [first] and whose later
    answers are [later]. *)
Definition two_step_llm (first later : string) (n : nat) (prompt : string)
    : Res string :=
  match n with O => Ok first | S _ => Ok later end.

(** A language model whose client raises. *)
Definition raising_llm (n : nat) (prompt : string) : Res string :=
  Raise "ConnectionError".

Definition alpha_listing : option (list DirEntry) :=
  Some [mkDirEntry "alpha" true true].

(** Both collections score 0.5. *)
Definition tie_env : Env :=
  sample_env two_listing (two_stores (1 # 2) (1 # 2))
             (constant_llm "Refunds take 14 days.") 5.

(** [beta] scores 0.5 and [alpha] 0.9; one candidate is kept. *)
Definition top1_env : Env :=
  sample_env two_listing (two_stores (1 # 2) (9 # 10))
             (constant_llm "Refunds take 14 days.") 1.

(** One collection, whose best match scores -0.5. *)
Definition negative_env : Env :=
  sample_env alpha_listing (two_stores 0 (- (1 # 2)))
             (constant_llm "Refunds take 14 days.") 5.

(** A request that names the unknown session ["abc"]. *)
Definition refund_request : Request :=
  mkRequest (Some "abc") (Some "  What is the refund policy? ").

(** The language-model client raises. *)
Definition llm_down_env : Env :=
  sample_env two_listing (two_stores (1 # 2) (9 # 10)) raising_llm 5.

(** The language model returns the error sentinel. *)
Definition sentinel_env : Env :=
  sample_env two_listing (two_stores (1 # 2) (9 # 10))
             (constant_llm "__LLM_ERROR__ quota exceeded") 5.



(** The grounded answer is the design document's phrase; a second call
    would return a general answer. *)
Definition phrase_env : Env :=
  sample_env two_listing (two_stores (1 # 2) (9 # 10))
             (two_step_llm "Not found in document." "General answer.") 5.

(** The grounded answer contains the marker of the code. *)
Definition marker_env : Env :=
  sample_env two_listing (two_stores (1 # 2) (9 # 10))
             (two_step_llm "Not found in the document." " General answer. ") 5.

(** ** The other endpoints *)

(** [create_session()]: the JSON body [{"session_id", "created_at"}]. *)
Definition create_session (E : Env) (w : World) : (string * string) * World :=
  let '(sid, w1) := get_or_create_session E None w in
  ((sid,
    match sessions w1 !! sid with
    | Some session => created_at session
    | None => ""
    end), w1).

Inductive HistoryResponse :=
| HistoryError (status : Z) (error : string)
| History (history_messages : list Message) (history_collection_id : option string).

(** [get_history()], on the query parameter [session_id]. *)
Definition get_history (session_id : option string) (w : World) : HistoryResponse :=
  match session_id with
  | None => HistoryError 400 "Invalid session_id"
  | Some sid =>
      if negb (PyStr.truthy sid) || negb (known sid w) then
        HistoryError 400 "Invalid session_id"
      else
        match sessions w !! sid with
        | Some session => History (messages session) (collection_id session)
        | None => HistoryError 400 "Invalid session_id"
        end
  end.

Inductive ClearResponse :=
| ClearError (status : Z) (error : string)
| Cleared.

(** [sessions[session_id]["messages"] = []] *)
Definition reset_messages (s : Session) : Session :=
  mkSession (session_id s) [] (collection_id s) (created_at s).

(** [clear_session()], on the JSON field [session_id]. *)
Definition clear_session (session_id : option string) (w : World)
    : ClearResponse * World :=
  match session_id with
  | None => (ClearError 400 "Invalid session_id", w)
  | Some sid =>
      if negb (PyStr.truthy sid) || negb (known sid w) then
        (ClearError 400 "Invalid session_id", w)
      else
        (Cleared,
         mkWorld (alter reset_messages sid (sessions w))
                 (uuid_calls w) (clock_reads w) (llm_calls w) (trace w))
  end.

(** One entry of the answer of [list_collections]; [list(docs)] lists a
    Python set, whose order is not fixed, so the documents are a set. *)
Record CollectionInfo := mkCollectionInfo {
  info_id : string;
  info_documents : gset string;
  info_total_chunks : nat
}.

(** [docs = set(); for meta in vs.meta.values(): docs.add(meta['doc'])] *)
Definition document_names (m : Dict ChunkMeta) : gset string :=
  fold_left (fun docs entry => docs ∪ {[doc (snd entry)]}) m ∅.

(** [list_collections()]: the entries and [total_collections]. *)
Definition list_collections (E : Env) : list CollectionInfo * nat :=
  let collection_info :=
    fold_left
      (fun infos collection =>
         match vs_load E (coll_path collection) with
         | Ok vs =>
             (infos ++ [mkCollectionInfo (coll_id collection)
                          (document_names (meta vs)) (length (meta vs))])%list
         | Raise _ => infos
         end)
      (get_all_collections E) [] in
  (collection_info, length collection_info).

(** Lines 212-217 of [upload_documents]: the pages of each document.
    [by_doc.setdefault(m["doc"], set()).add(int(m["page"]))] *)
Definition add_page (by_doc : Dict (gset Z)) (entry : string * ChunkMeta)
    : Dict (gset Z) :=
  let m := snd entry in
  match PyDict.get (doc m) by_doc with
  | Some doc_pages => PyDict.set (doc m) (doc_pages ∪ {[page m]}) by_doc
  | None => PyDict.set (doc m) ({[page m]} : gset Z) by_doc
  end.

Definition pages_by_doc (m : Dict ChunkMeta) : Dict (gset Z) :=
  fold_left add_page m [].

(** [[{"filename": doc, "pages": len(pages)} for doc, pages in
    by_doc.items()]] *)
Definition doc_stats (m : Dict ChunkMeta) : list (string * nat) :=
  map (fun item => (fst item, size (snd item))) (pages_by_doc m).

(** One uploaded file: its name and its bytes. *)
Record UploadFile := mkUploadFile {
  filename : string;
  file_data : string
}.

(** The form of an upload: the field [session_id], and the files under
    the key [files] when the key is there. *)
Record UploadRequest := mkUploadRequest {
  up_session_id : option string;
  up_files : option (list UploadFile)
}.

Inductive UploadCheck :=
| UploadRejected (status : Z) (error : string)
| UploadAccepted (sid : string) (files : list UploadFile).

(** Lines 156-167 of [upload_documents]: what happens before the [try]
    block that stores and indexes the files. *)
Definition upload_precheck (E : Env) (req : UploadRequest) (w : World)
    : UploadCheck * World :=
  match up_session_id req with
  | None => (UploadRejected 400 "session_id required", w)
  | Some sid_given =>
      if negb (PyStr.truthy sid_given) then
        (UploadRejected 400 "session_id required", w)
      else
        let '(sid, w1) := get_or_create_session E (Some sid_given) w in
        match up_files req with
        | None => (UploadRejected 400 "No files provided", w1)
        | Some files =>
            if negb (PyList.truthy files) then
              (UploadRejected 400 "No files provided", w1)
            else (UploadAccepted sid files, w1)
        end
  end.

(** ** Sequences of requests *)

(** A request to one of the endpoints that touch the session store. *)
Inductive Op :=
| OpCreate
| OpQuery (req : Request)
| OpHistory (session_id : option string)
| OpClear (session_id : option string)
| OpUploadCheck (req : UploadRequest).

Definition run_op (E : Env) (w : World) (op : Op) : World :=
  match op with
  | OpCreate => snd (create_session E w)
  | OpQuery req => snd (query E req w)
  | OpHistory _ => w
  | OpClear sid => snd (clear_session sid w)
  | OpUploadCheck req => snd (upload_precheck E req w)
  end.

Definition run_ops (E : Env) (ops : list Op) (w : World) : World :=
  fold_left (run_op E) ops w.

(** Every session is stored under its own id. *)
Definition keys_match_ids (w : World) : Prop :=
  forall k s, sessions w !! k = Some s -> session_id s = k.

(** The string holds a colon. *)
Definition has_colon (s : string) : bool :=
  existsb (fun c => Ascii.eqb c ":") (list_ascii_of_string s).

(** A session whose log is empty, and one that holds twelve messages. *)
Definition long_log : list Message :=
  map (fun n => mkMessage (if Nat.even n then user else assistant)
                          ("message " ++ pretty n) (sample_now n))
      (seq 0 12).

Definition sample_session (log : list Message) : Session :=
  mkSession "s-1" log None "2025-01-01T00:00:00.0".

Definition world_with (s : Session) : World :=
  mkWorld {[ session_id s := s ]} 1 1 0 [].

(** The environment [E] over another directory listing. *)
Definition with_listing (E : Env) (listing : option (list DirEntry)) : Env :=
  mkEnv (VS_BASE E) (LOW_CONFIDENCE_THRESH E) (TOPK_DENSE E) (TOPK_FINAL E)
        listing (vs_load E) (is_generic_query E) (make_context E)
        (build_prompt E) (add_inline_citations E)
        (minimal_extractive_fallback E) (llm_generate E) (uuid4 E)
        (now_isoformat E).

(** The collection of a directory entry. *)
Definition entry_collection (E : Env) (entry : DirEntry) : CollectionRef :=
  mkCollectionRef (folder_name entry) (os_path_join (VS_BASE E) (folder_name entry)).

(** The entry is a collection folder that loads and whose search
    returns. *)
Definition contributes (E : Env) (query : string) (topk_dense final_k : Z)
    (entry : DirEntry) : bool :=
  is_dir entry && has_meta_json entry
  && match collection_results E query topk_dense final_k (entry_collection E entry) with
     | Some _ => true
     | None => false
     end.

(** The metadata [m] under the global id [g] is the metadata that a
    collection of the listing holds for a chunk its search returned. *)
Definition from_store (E : Env) (query : string) (topk_dense final_k : Z)
    (g : string) (m : ChunkMeta) : Prop :=
  exists c vs results cid s,
    In c (get_all_collections E)
    /\ collection_results E query topk_dense final_k c = Some (vs, results)
    /\ In (cid, s) results
    /\ g = global_id c cid
    /\ PyDict.get cid (meta vs) = Some m.

(** One part of the conversation summary. *)
Definition summary_part (msg : Message) : string :=
  role_label (role msg) ++ ": " ++ PyStr.take 100 (content msg).

(** Both collections score 0.2, below the threshold 0.3. *)
Definition low_confidence_env : Env :=
  sample_env two_listing (two_stores (1 # 5) (1 # 5))
             (constant_llm "I do not know.") 5.

(** The grounded answer contains the marker and the retry returns the
    error sentinel. *)
Definition retry_fails_env : Env :=
  sample_env two_listing (two_stores (1 # 2) (9 # 10))
             (two_step_llm "Not found in the document." "__LLM_ERROR__ timeout") 5.

(** A property of the session store that survives the two ways the
    server writes to it: storing a session under its own id, and
    changing a stored session without changing its id. *)
Definition store_stable (P : gmap string Session -> Prop) : Prop :=
  (forall m s, P m -> P (<[session_id s := s]> m))
  /\ (forall m k f, (forall s, session_id (f s) = session_id s) ->
                    P m -> P (alter f k m)).

(** The distinct pages on which the chunks of document [d] lie. *)
Definition pages_of (d : string) (m : Dict ChunkMeta) : gset Z :=
  list_to_set
    (map (fun entry => page (snd entry))
         (List.filter (fun entry => String.eqb (doc (snd entry)) d) m)).

(** A store of three chunks of two documents. *)
Definition sample_meta : Dict ChunkMeta :=
  [("0", mkChunkMeta "guide.pdf" 1 "Install the tool.");
   ("1", mkChunkMeta "faq.pdf" 4 "Refunds are processed within 14 days.");
   ("2", mkChunkMeta "guide.pdf" 1 "Run the tool.")].

(** * Properties *)

(** ** String and list primitives *)

Lemma last_n_rev {A} (n : nat) (l : list A) :
  PyList.last_n n l = rev (take n (rev l)).
Proof.
  unfold PyList.last_n.
  rewrite <- (rev_involutive l) at 2.
  rewrite <- (length_rev l).
  generalize (rev l) as r. intros r.
  rewrite <- (take_drop n r) at 2.
  rewrite rev_app_distr.
  rewrite drop_app_length'; [reflexivity|].
  rewrite !length_rev, length_drop. reflexivity.
Qed.

Lemma last_n_suffix {A} (n : nat) (l : list A) :
  l = (take (length l - n) l ++ PyList.last_n n l)%list
  /\ length (PyList.last_n n l) = Nat.min n (length l).
Proof.
  unfold PyList.last_n. split.
  - symmetry. apply take_drop.
  - rewrite length_drop. lia.
Qed.

Lemma take_list_ascii (n : nat) (s : string) :
  PyStr.take n s = string_of_list_ascii (take n (list_ascii_of_string s)).
Proof.
  revert s. induction n as [|n IH]; intros [|c r]; simpl; try reflexivity.
  now rewrite IH.
Qed.

Lemma take_prefix (n : nat) (s : string) :
  exists rest, s = PyStr.take n s ++ rest
               /\ String.length (PyStr.take n s) = Nat.min n (String.length s).
Proof.
  revert s. induction n as [|n IH]; intros s.
  - exists s. destruct s; simpl; auto.
  - destruct s as [|c r]; simpl.
    + exists EmptyString. auto.
    + destruct (IH r) as (rest & Hr & Hl). exists rest. split.
      * rewrite Hr at 1. reflexivity.
      * f_equal. exact Hl.
Qed.

(** ** The conversation summary *)

Lemma string_app_assoc (a b c : string) : (a ++ b) ++ c = a ++ (b ++ c).
Proof.
  induction a as [|x a IH]; [reflexivity|].
  change (String x ((a ++ b) ++ c) = String x (a ++ (b ++ c))).
  now rewrite IH.
Qed.

Lemma cut_to_take (n : nat) (s : string) : cut_to n s = PyStr.take n s.
Proof. unfold cut_to. symmetry. apply take_list_ascii. Qed.

(** Putting texts one after the other from the left is what [join]
    builds from the right. *)
Lemma separated_join (sep : string) (texts : list string) :
  separated sep texts = PyStr.join sep texts.
Proof.
  destruct texts as [|first others]; [reflexivity|].
  cbn [separated]. revert first.
  induction others as [|t others IH]; intros first; [reflexivity|].
  cbn [fold_left]. rewrite IH.
  change (PyStr.join sep (first :: t :: others))
    with (first ++ sep ++ PyStr.join sep (t :: others)).
  destruct others as [|t' others].
  - reflexivity.
  - change (PyStr.join sep ((first ++ sep ++ t) :: t' :: others))
      with ((first ++ sep ++ t) ++ sep ++ PyStr.join sep (t' :: others)).
    change (PyStr.join sep (t :: t' :: others))
      with (t ++ sep ++ PyStr.join sep (t' :: others)).
    now rewrite !string_app_assoc.
Qed.

(** C8. For every session, the conversation summary is the text the
    design document describes: the fixed marker ["No prior
    conversation."] for an empty log; otherwise, for the last ten
    messages of the log in temporal order, the role label of each
    message (["User"] or ["Assistant"]), a colon and a space, and the
    first 100 characters of its text, these parts standing one after the
    other with [" | "] between two of them. *)
Theorem conversation_summary_text (s : Session) :
  conversation_summary s = summary_text (messages s).
Proof.
  unfold conversation_summary, summary_text.
  destruct (messages s) as [|m l] eqn:Hm; [reflexivity|].
  cbn [PyList.truthy negb]. rewrite separated_join, last_n_rev.
  f_equal. apply List.map_ext. intros a.
  rewrite <- cut_to_take. now destruct (role a).
Qed.

(** ** Scores *)

Lemma score_ltb_lt (a b : Score) : score_ltb a b = true <-> (a < b)%Q.
Proof.
  unfold score_ltb. rewrite negb_true_iff.
  destruct (Qle_bool b a) eqn:H.
  - apply Qle_bool_iff in H. split; [discriminate|].
    intros Hlt. exfalso. exact (Qlt_not_le _ _ Hlt H).
  - split; [intros _|reflexivity].
    apply Qnot_le_lt. intros Hle. apply Qle_bool_iff in Hle. congruence.
Qed.

Lemma score_ltb_ge (a b : Score) : score_ltb a b = false <-> (b <= a)%Q.
Proof.
  unfold score_ltb. rewrite negb_false_iff. apply Qle_bool_iff.
Qed.

Lemma py_max_cases (a b : Score) :
  (py_max a b = a /\ (b <= a)%Q) \/ (py_max a b = b /\ (a < b)%Q).
Proof.
  unfold py_max. destruct (score_ltb a b) eqn:H.
  - right. split; [reflexivity|]. now apply score_ltb_lt.
  - left. split; [reflexivity|]. now apply score_ltb_ge.
Qed.

Lemma fold_py_max (l : list Score) (init : Score) :
  In (fold_left py_max l init) (init :: l)
  /\ forall x, In x (init :: l) -> (x <= fold_left py_max l init)%Q.
Proof.
  revert init. induction l as [|x l IH]; intros init; simpl.
  - split; [now left|]. intros y [<-|[]]. apply Qle_refl.
  - assert (Hm : (py_max init x = init \/ py_max init x = x)
                 /\ (init <= py_max init x)%Q /\ (x <= py_max init x)%Q).
    { destruct (py_max_cases init x) as [[E H]|[E H]]; rewrite E;
        repeat split; auto; try apply Qle_refl. now apply Qlt_le_weak. }
    destruct (IH (py_max init x)) as [Hin Hge].
    revert Hm Hin Hge. generalize (py_max init x) as m.
    intros m (Hm & Hi & Hx) Hin Hge. split.
    + destruct Hin as [Heq|Hin].
      * destruct Hm as [E|E]; [left | right; left]; rewrite <- E; exact Heq.
      * right; right; exact Hin.
    + intros y Hy.
      assert (Htop : (m <= fold_left py_max l m)%Q) by (apply Hge; now left).
      destruct Hy as [<-|[<-|Hy]].
      * eapply Qle_trans; eauto.
      * eapply Qle_trans; eauto.
      * apply Hge. now right.
Qed.

(** ** The stable descending sort *)

Lemma insert_desc_perm (x : string * Score) (l : list (string * Score)) :
  Permutation (insert_desc x l) (x :: l).
Proof.
  induction l as [|y r IH]; simpl; [reflexivity|].
  destruct (score_ltb (snd x) (snd y)); [|reflexivity].
  rewrite IH. apply perm_swap.
Qed.

Lemma sort_desc_perm (l : list (string * Score)) : Permutation (sort_desc l) l.
Proof.
  induction l as [|x r IH]; simpl; [reflexivity|].
  rewrite insert_desc_perm. now constructor.
Qed.

Lemma insert_desc_sorted (x : string * Score) (l : list (string * Score)) :
  desc_by_score l -> desc_by_score (insert_desc x l).
Proof.
  unfold desc_by_score. induction 1 as [|y r Hr IH Hy]; simpl.
  - constructor; constructor.
  - destruct (score_ltb (snd x) (snd y)) eqn:Hc.
    + constructor; [exact IH|].
      eapply Permutation_Forall; [symmetry; apply insert_desc_perm|].
      constructor; [|exact Hy].
      apply Qlt_le_weak. now apply score_ltb_lt.
    + apply score_ltb_ge in Hc.
      constructor; [constructor; assumption|].
      constructor; [exact Hc|].
      eapply List.Forall_impl; [|exact Hy]. intros z Hz. simpl in Hz.
      eapply Qle_trans; eauto.
Qed.

Lemma sort_desc_sorted (l : list (string * Score)) : desc_by_score (sort_desc l).
Proof.
  induction l as [|x r IH]; simpl; [constructor|].
  now apply insert_desc_sorted.
Qed.

Lemma insert_desc_filter (s : Score) (x : string * Score) (l : list (string * Score)) :
  filter (fun y => Qeq_bool (snd y) s = true) (insert_desc x l)
  = filter (fun y => Qeq_bool (snd y) s = true) (x :: l).
Proof.
  induction l as [|y r IH]; simpl; [reflexivity|].
  destruct (score_ltb (snd x) (snd y)) eqn:Hc; [|reflexivity].
  rewrite !filter_cons in *.
  destruct (decide (Qeq_bool (snd x) s = true)) as [Hx|Hx];
    destruct (decide (Qeq_bool (snd y) s = true)) as [Hy|Hy];
    try (rewrite IH; reflexivity).
  exfalso. apply score_ltb_lt in Hc.
  apply Qeq_bool_iff in Hx, Hy. rewrite Hx, Hy in Hc.
  exact (Qlt_irrefl _ Hc).
Qed.

Lemma sort_desc_stable (l : list (string * Score)) :
  ties_keep_order l (sort_desc l).
Proof.
  intros s. induction l as [|x r IH]; simpl; [reflexivity|].
  rewrite insert_desc_filter, !filter_cons, IH. reflexivity.
Qed.

Lemma desc_by_score_take (n : nat) (l : list (string * Score)) :
  desc_by_score l -> desc_by_score (take n l).
Proof.
  unfold desc_by_score. intros H. revert n.
  induction H as [|y r Hr IH Hy]; intros [|n]; simpl; try constructor.
  - apply IH.
  - apply Forall_take. exact Hy.
Qed.

Lemma slice_to_take {A} (k : Z) (l : list A) :
  exists n, PyList.slice_to k l = take n l.
Proof. unfold PyList.slice_to. destruct (0 <=? k)%Z; eauto. Qed.

(** ** Dictionaries *)

Lemma dict_mem_keys {V} (k : string) (d : Dict V) :
  PyDict.mem k d = true <-> In k (PyDict.keys d).
Proof.
  unfold PyDict.mem, PyDict.keys.
  induction d as [|[k' v] r IH]; simpl.
  - split; [discriminate | tauto].
  - destruct (String.eqb k k') eqn:Hk.
    + apply String.eqb_eq in Hk. subst. split; auto.
    + apply String.eqb_neq in Hk. rewrite IH. split; [now right|].
      intros [Heq|Hin]; [congruence | exact Hin].
Qed.

Lemma dict_set_keys {V} (g k : string) (v : V) (d : Dict V) :
  In g (PyDict.keys (PyDict.set k v d)) <-> g = k \/ In g (PyDict.keys d).
Proof.
  unfold PyDict.keys. induction d as [|[k' v'] r IH]; simpl.
  - split; [intros [H|[]]; auto | intros [H|[]]; auto].
  - destruct (String.eqb k k') eqn:Hk; simpl.
    + apply String.eqb_eq in Hk. subst k'. split; [tauto|].
      intros [H|H]; auto.
    + rewrite IH. tauto.
Qed.

Lemma dict_set_nodup {V} (k : string) (v : V) (d : Dict V) :
  List.NoDup (PyDict.keys d) -> List.NoDup (PyDict.keys (PyDict.set k v d)).
Proof.
  induction d as [|[k' v'] r IH]; simpl; intros H.
  - constructor; [intros [] | constructor].
  - inversion H as [|? ? Hnin Hr]; subst.
    destruct (String.eqb k k') eqn:Hk; simpl.
    + constructor; assumption.
    + apply String.eqb_neq in Hk. constructor; [|now apply IH].
      intros Hin. apply (dict_set_keys k' k v r) in Hin.
      destruct Hin as [Heq|Hin]; [congruence | contradiction].
Qed.

(** ** The search aggregator *)

Section Aggregator.
Variable E : Env.
Variables (q : string) (topk_dense final_k : Z).

Lemma add_results_max (c : CollectionRef) (vs : VectorStore)
    (results : list (string * Score)) (st : AggState) :
  max_score (fold_left (add_result c vs) results st) = max_score st.
Proof.
  revert st. induction results as [|[cid s] r IH]; intros st; simpl;
    [reflexivity|]. now rewrite IH.
Qed.

Lemma add_results_all (c : CollectionRef) (vs : VectorStore)
    (results : list (string * Score)) (st : AggState) :
  all_results (fold_left (add_result c vs) results st)
  = (all_results st
     ++ map (fun r => (global_id c (fst r), snd r)) results)%list.
Proof.
  revert st. induction results as [|[cid s] r IH]; intros st; simpl.
  - now rewrite app_nil_r.
  - rewrite IH. simpl. now rewrite <- app_assoc.
Qed.

(** One round of the loop, by what the collection contributes. *)
Lemma search_collection_eq (st : AggState) (c : CollectionRef) :
  search_collection E q topk_dense final_k st c
  = match collection_results E q topk_dense final_k c with
    | None => st
    | Some (vs, results) =>
        let st1 := fold_left (add_result c vs) results st in
        mkAggState (all_results st1) (combined_meta st1)
          (match observed_top_score E q topk_dense final_k c with
           | Some top_score => py_max (max_score st) top_score
           | None => max_score st
           end)
    end.
Proof.
  unfold search_collection, collection_results, observed_top_score.
  destruct (vs_load E (coll_path c)) as [vs|e]; [|reflexivity].
  destruct (search_hybrid vs q topk_dense final_k) as [results|e];
    [|reflexivity].
  cbv zeta. rewrite <- (add_results_max c vs results st).
  destruct results as [|r0 rs].
  - simpl. now destruct st.
  - cbn [PyList.truthy].
    destruct (top_dense_score vs q); [reflexivity|].
    now destruct (fold_left (add_result c vs) (r0 :: rs) st).
Qed.

Lemma step_max (st : AggState) (c : CollectionRef) :
  max_score (search_collection E q topk_dense final_k st c)
  = match observed_top_score E q topk_dense final_k c with
    | Some top_score => py_max (max_score st) top_score
    | None => max_score st
    end.
Proof.
  rewrite search_collection_eq.
  unfold collection_results, observed_top_score.
  destruct (vs_load E (coll_path c)) as [vs|e]; [|reflexivity].
  destruct (search_hybrid vs q topk_dense final_k) as [results|e];
    reflexivity.
Qed.

Lemma fold_step_max (l : list CollectionRef) (st : AggState) :
  max_score (fold_left (search_collection E q topk_dense final_k) l st)
  = fold_left py_max (omap (observed_top_score E q topk_dense final_k) l)
              (max_score st).
Proof.
  revert st. induction l as [|c l IH]; intros st; [reflexivity|].
  cbn [fold_left omap list_omap]. rewrite IH, step_max.
  destruct (observed_top_score E q topk_dense final_k c); reflexivity.
Qed.

Lemma slice_to_nil {A} (k : Z) : PyList.slice_to k (@nil A) = [].
Proof. unfold PyList.slice_to. destruct (0 <=? k)%Z; now rewrite take_nil. Qed.

(** The early return for an empty listing agrees with the general
    path. *)
Lemma search_all_collections_eq :
  search_all_collections E q topk_dense final_k
  = (PyList.slice_to final_k
       (sort_desc (all_results (collect E q topk_dense final_k))),
     combined_meta (collect E q topk_dense final_k),
     max_score (collect E q topk_dense final_k)).
Proof.
  unfold search_all_collections, collect.
  destruct (get_all_collections E) as [|c l]; [|reflexivity].
  simpl. now rewrite slice_to_nil.
Qed.

End Aggregator.

Lemma all_results_collect (E : Env) (q : string) (topk_dense final_k : Z) :
  all_results (collect E q topk_dense final_k)
  = collected_candidates E q topk_dense final_k.
Proof.
  unfold collect, collected_candidates.
  assert (H : forall l st,
             all_results (fold_left (search_collection E q topk_dense final_k) l st)
             = (all_results st
                ++ flat_map
                     (fun c =>
                        match collection_results E q topk_dense final_k c with
                        | Some (_, results) =>
                            map (fun r => (global_id c (fst r), snd r)) results
                        | None => []
                        end) l)%list).
  { induction l as [|c l IH]; intros st; simpl.
    - now rewrite app_nil_r.
    - rewrite IH, search_collection_eq.
      destruct (collection_results E q topk_dense final_k c) as [[vs results]|].
      + cbn [all_results]. rewrite add_results_all. now rewrite <- app_assoc.
      + reflexivity. }
  now rewrite H.
Qed.

Lemma get_all_collections_ext (E1 E2 : Env) :
  VS_BASE E1 = VS_BASE E2 -> vs_base_listing E1 = vs_base_listing E2 ->
  get_all_collections E1 = get_all_collections E2.
Proof. unfold get_all_collections. now intros -> ->. Qed.

Lemma search_all_collections_ext (E1 E2 : Env) (q : string) (topk_dense final_k : Z) :
  VS_BASE E1 = VS_BASE E2 ->
  vs_base_listing E1 = vs_base_listing E2 ->
  (forall path, vs_load E1 path = vs_load E2 path) ->
  search_all_collections E1 q topk_dense final_k
  = search_all_collections E2 q topk_dense final_k.
Proof.
  intros Hb Hl Hv.
  assert (Hstep : forall l st,
             fold_left (search_collection E1 q topk_dense final_k) l st
             = fold_left (search_collection E2 q topk_dense final_k) l st).
  { induction l as [|c l IH]; intros st; [reflexivity|]. simpl.
    rewrite IH. unfold search_collection. now rewrite Hv. }
  unfold search_all_collections, collect.
  rewrite (get_all_collections_ext E1 E2 Hb Hl), Hstep. reflexivity.
Qed.

(** C1, as the code has it. The merged list is the first [final_k]
    elements of a list that permutes the concatenated candidates, is
    sorted by score descending, and keeps candidates of equal score in
    their order of concatenation (collection listing order, then the
    collection's own result order); it is itself sorted by score
    descending, and it is a function of the directory listing and of what
    the collections return, so two runs over unchanged collections yield
    the same output. *)
Theorem merge_sorted_stable_deterministic
    (E1 E2 : Env) (q : string) (topk_dense final_k : Z) :
  VS_BASE E1 = VS_BASE E2 ->
  vs_base_listing E1 = vs_base_listing E2 ->
  (forall path, vs_load E1 path = vs_load E2 path) ->
  search_all_collections E1 q topk_dense final_k
  = search_all_collections E2 q topk_dense final_k
  /\ desc_by_score (search_all_collections E1 q topk_dense final_k).1.1
  /\ exists sorted,
       (search_all_collections E1 q topk_dense final_k).1.1
       = PyList.slice_to final_k sorted
       /\ Permutation sorted (collected_candidates E1 q topk_dense final_k)
       /\ desc_by_score sorted
       /\ ties_keep_order (collected_candidates E1 q topk_dense final_k) sorted.
Proof.
  intros Hb Hl Hv. split; [now apply search_all_collections_ext|].
  rewrite search_all_collections_eq, <- all_results_collect. cbn [fst]. split.
  - destruct (slice_to_take final_k
                (sort_desc (all_results (collect E1 q topk_dense final_k))))
      as [n ->].
    apply desc_by_score_take, sort_desc_sorted.
  - exists (sort_desc (all_results (collect E1 q topk_dense final_k))).
    split; [reflexivity|]. split; [apply sort_desc_perm|].
    split; [apply sort_desc_sorted | apply sort_desc_stable].
Qed.

Lemma merge_sorted_stable_deterministic_witness :
  search_all_collections tie_env "refund policy" 20 5
  = search_all_collections tie_env "refund policy" 20 5
  /\ desc_by_score (search_all_collections tie_env "refund policy" 20 5).1.1
  /\ exists sorted,
       (search_all_collections tie_env "refund policy" 20 5).1.1
       = PyList.slice_to 5 sorted
       /\ Permutation sorted (collected_candidates tie_env "refund policy" 20 5)
       /\ desc_by_score sorted
       /\ ties_keep_order (collected_candidates tie_env "refund policy" 20 5) sorted.
Proof.
  apply (merge_sorted_stable_deterministic tie_env tie_env "refund policy" 20 5);
    reflexivity.
Defined.

(** C1 as worded fails: the collections [beta] and [alpha], listed in
    that order, each return chunk ["0"] with score 0.5; the merged list
    keeps [beta::0] before [alpha::0], although ["alpha::0"] is the
    smaller global id. *)
Lemma merge_ties_by_id_counterexample :
  (search_all_collections tie_env "refund policy" 20 5).1.1
  = [("beta::0", 1 # 2); ("alpha::0", 1 # 2)]
  /\ claimed_order (search_all_collections tie_env "refund policy" 20 5).1.1 = false.
Proof. split; reflexivity. Qed.

(** ** The metadata mapping *)

Lemma add_result_inv c vs st r : agg_inv st -> agg_inv (add_result c vs st r).
Proof.
  intros [Hk Hn]. destruct r as [cid s]. unfold add_result, agg_inv.
  cbn [all_results combined_meta]. rewrite map_app. split.
  - intros g Hg. apply in_or_app.
    destruct (PyDict.get cid (meta vs)).
    + apply dict_set_keys in Hg. destruct Hg as [->|Hg]; [right; now left|].
      left; now apply Hk.
    + left; now apply Hk.
  - destruct (PyDict.get cid (meta vs)); [now apply dict_set_nodup | exact Hn].
Qed.

Lemma add_result_keys c vs st r g :
  In g (PyDict.keys (combined_meta st)) ->
  In g (PyDict.keys (combined_meta (add_result c vs st r))).
Proof.
  intros Hg. destruct r as [cid s]. unfold add_result. cbn [combined_meta].
  destruct (PyDict.get cid (meta vs)); [|exact Hg].
  apply dict_set_keys. now right.
Qed.

Lemma add_results_inv c vs results st :
  agg_inv st -> agg_inv (fold_left (add_result c vs) results st).
Proof.
  revert st. induction results as [|r rs IH]; intros st H; simpl; [exact H|].
  now apply IH, add_result_inv.
Qed.

Lemma add_results_keys c vs results st g :
  In g (PyDict.keys (combined_meta st)) ->
  In g (PyDict.keys (combined_meta (fold_left (add_result c vs) results st))).
Proof.
  revert st. induction results as [|r rs IH]; intros st H; simpl; [exact H|].
  now apply IH, add_result_keys.
Qed.

Lemma add_results_covers c vs results st cid s :
  In (cid, s) results -> PyDict.mem cid (meta vs) = true ->
  In (global_id c cid)
     (PyDict.keys (combined_meta (fold_left (add_result c vs) results st))).
Proof.
  intros Hin Hmem. revert st.
  induction results as [|r rs IH]; intros st; [destruct Hin|].
  simpl. destruct Hin as [->|Hin]; [|now apply IH].
  apply add_results_keys. unfold add_result, PyDict.mem in *.
  cbn [combined_meta]. destruct (PyDict.get cid (meta vs)); [|discriminate].
  apply dict_set_keys. now left.
Qed.

Section Mapping.
Variable E : Env.
Variables (q : string) (topk_dense final_k : Z).

Lemma step_inv st c :
  agg_inv st -> agg_inv (search_collection E q topk_dense final_k st c).
Proof.
  intros H. rewrite search_collection_eq.
  destruct (collection_results E q topk_dense final_k c) as [[vs results]|];
    [|exact H].
  apply (add_results_inv c vs results) in H. exact H.
Qed.

Lemma step_keys st c g :
  In g (PyDict.keys (combined_meta st)) ->
  In g (PyDict.keys (combined_meta (search_collection E q topk_dense final_k st c))).
Proof.
  intros H. rewrite search_collection_eq.
  destruct (collection_results E q topk_dense final_k c) as [[vs results]|];
    [|exact H].
  cbn [combined_meta]. now apply add_results_keys.
Qed.

Lemma fold_step_inv l st :
  agg_inv st ->
  agg_inv (fold_left (search_collection E q topk_dense final_k) l st).
Proof.
  revert st. induction l as [|c l IH]; intros st H; simpl; [exact H|].
  now apply IH, step_inv.
Qed.

Lemma fold_step_keys l st g :
  In g (PyDict.keys (combined_meta st)) ->
  In g (PyDict.keys
          (combined_meta
             (fold_left (search_collection E q topk_dense final_k) l st))).
Proof.
  revert st. induction l as [|c l IH]; intros st H; simpl; [exact H|].
  now apply IH, step_keys.
Qed.

Lemma fold_step_covers l st c vs results cid s :
  In c l ->
  collection_results E q topk_dense final_k c = Some (vs, results) ->
  In (cid, s) results -> PyDict.mem cid (meta vs) = true ->
  In (global_id c cid)
     (PyDict.keys
        (combined_meta
           (fold_left (search_collection E q topk_dense final_k) l st))).
Proof.
  intros Hc Hres Hin Hmem. revert st.
  induction l as [|c' l IH]; intros st; [destruct Hc|].
  simpl. destruct Hc as [->|Hc]; [|now apply IH].
  apply fold_step_keys. rewrite search_collection_eq, Hres.
  cbn [combined_meta]. now apply add_results_covers with (s := s).
Qed.

End Mapping.

(** C5, as the code has it. The metadata mapping is filled while the
    candidates are collected and is never cut down to the returned list:
    each of its keys is the global id of a collected candidate, no key is
    repeated, every collected candidate whose chunk id is in its
    collection's metadata has an entry whether or not it is returned,
    and the returned candidates are among the collected ones. *)
Theorem metadata_covers_collected (E : Env) (q : string) (topk_dense final_k : Z) :
  let top_results := (search_all_collections E q topk_dense final_k).1.1 in
  let mapping := (search_all_collections E q topk_dense final_k).1.2 in
  (forall g, In g (PyDict.keys mapping) ->
             In g (map fst (collected_candidates E q topk_dense final_k)))
  /\ List.NoDup (PyDict.keys mapping)
  /\ (forall c vs results cid s,
        In c (get_all_collections E) ->
        collection_results E q topk_dense final_k c = Some (vs, results) ->
        In (cid, s) results ->
        PyDict.mem cid (meta vs) = true ->
        In (global_id c cid) (PyDict.keys mapping))
  /\ (forall cand, In cand top_results ->
                   In cand (collected_candidates E q topk_dense final_k)).
Proof.
  cbv zeta. rewrite search_all_collections_eq. cbn [fst snd].
  rewrite <- all_results_collect.
  assert (Hinv : agg_inv (collect E q topk_dense final_k)).
  { unfold collect. apply fold_step_inv. split; [intros g []|constructor]. }
  destruct Hinv as [Hk Hn].
  split; [exact Hk|]. split; [exact Hn|]. split.
  - intros c vs results cid s Hc Hres Hin Hmem.
    unfold collect.
    now apply fold_step_covers with (vs := vs) (results := results) (s := s).
  - intros cand Hin.
    destruct (slice_to_take final_k
                (sort_desc (all_results (collect E q topk_dense final_k))))
      as [n Hn']. rewrite Hn' in Hin.
    apply (Permutation_in _ (sort_desc_perm _)).
    rewrite <- (take_drop n (sort_desc _)). apply in_or_app. now left.
Qed.

Lemma metadata_covers_collected_witness :
  In "beta::0"
     (PyDict.keys (search_all_collections top1_env "refund policy" 20 1).1.2).
Proof.
  destruct (metadata_covers_collected top1_env "refund policy" 20 1)
    as (_ & _ & H & _).
  apply (H (mkCollectionRef "beta" "data/vector_store/beta")
           (fixed_store [("0", mkChunkMeta "beta.pdf" 7 "Shipping takes 3 days.")]
                        [("0", 1 # 2)] (1 # 2))
           [("0", 1 # 2)] "0" (1 # 2)).
  - left. reflexivity.
  - reflexivity.
  - left. reflexivity.
  - reflexivity.
Defined.

(** C5 as worded fails: with [final_k = 1] and two collections that each
    return one candidate, only [alpha::0] is returned, yet the mapping
    also holds the metadata of [beta::0]. *)
Lemma metadata_exactly_returned_counterexample :
  (search_all_collections top1_env "refund policy" 20 1).1.1 = [("alpha::0", 9 # 10)]
  /\ PyDict.keys (search_all_collections top1_env "refund policy" 20 1).1.2
     = ["beta::0"; "alpha::0"]
  /\ ~ (forall g,
          In g (PyDict.keys (search_all_collections top1_env "refund policy" 20 1).1.2) ->
          In g (map fst (search_all_collections top1_env "refund policy" 20 1).1.1)).
Proof.
  split; [reflexivity|]. split; [reflexivity|].
  intros H. specialize (H "beta::0" (or_introl eq_refl)).
  vm_compute in H. destruct H as [H|[]]. discriminate H.
Qed.

(** ** The confidence signal *)

Lemma observed_none_when_load_fails (E : Env) (q : string) (topk_dense final_k : Z) :
  (forall c, In c (get_all_collections E) ->
             exists e, vs_load E (coll_path c) = Raise e) ->
  observed_top_scores E q topk_dense final_k = [].
Proof.
  unfold observed_top_scores.
  induction (get_all_collections E) as [|c l IH]; intros H; [reflexivity|].
  cbn [omap list_omap]. unfold observed_top_score at 1.
  destruct (H c (or_introl eq_refl)) as [e ->].
  apply IH. intros c' Hc'. apply H. now right.
Qed.

(** C6, as the code has it. The confidence signal is the running maximum,
    started at 0.0, of the top scores of the collections that loaded and
    returned at least one search result: it is the greatest of 0.0 and
    those top scores, hence their maximum as soon as one of them is not
    negative; the merged list and its truncation do not enter it; and it
    is 0.0 when no collection exists or every collection fails to load. *)
Theorem confidence_is_max_with_zero (E : Env) (q : string) (topk_dense final_k : Z) :
  let conf := (search_all_collections E q topk_dense final_k).2 in
  let tops := observed_top_scores E q topk_dense final_k in
  conf = fold_left py_max tops 0%Q
  /\ is_max_of conf (0%Q :: tops)
  /\ ((exists x, In x tops /\ (0 <= x)%Q) -> is_max_of conf tops)
  /\ ((forall c, In c (get_all_collections E) ->
                 exists e, vs_load E (coll_path c) = Raise e) ->
      conf = 0%Q).
Proof.
  cbv zeta. rewrite search_all_collections_eq. cbn [snd].
  assert (Hfold : max_score (collect E q topk_dense final_k)
                  = fold_left py_max (observed_top_scores E q topk_dense final_k) 0%Q).
  { unfold collect, observed_top_scores. now rewrite fold_step_max. }
  rewrite Hfold.
  destruct (fold_py_max (observed_top_scores E q topk_dense final_k) 0%Q)
    as [Hin Hge].
  split; [reflexivity|]. split; [|split].
  - split; [|exact Hge]. eexists; split; [exact Hin | reflexivity].
  - intros (x & Hx & Hpos). split.
    + destruct Hin as [H0|Hin].
      * exists x. split; [exact Hx|]. rewrite <- H0. apply Qle_antisym.
        -- rewrite H0. apply Hge. now right.
        -- exact Hpos.
      * eexists; split; [exact Hin | reflexivity].
    + intros y Hy. apply Hge. now right.
  - intros Hfail.
    now rewrite (observed_none_when_load_fails E q topk_dense final_k Hfail).
Qed.

Lemma confidence_is_max_with_zero_witness :
  is_max_of (search_all_collections top1_env "refund policy" 20 1).2
            (observed_top_scores top1_env "refund policy" 20 1)
  /\ (search_all_collections
        (sample_env None (two_stores 0 0) (constant_llm "") 5)
        "refund policy" 20 5).2 = 0%Q.
Proof.
  split.
  - destruct (confidence_is_max_with_zero top1_env "refund policy" 20 1)
      as (_ & _ & H & _).
    apply H. exists (1 # 2)%Q. split; [left; reflexivity | discriminate].
  - destruct (confidence_is_max_with_zero
                (sample_env None (two_stores 0 0) (constant_llm "") 5)
                "refund policy" 20 5) as (_ & _ & _ & H).
    apply H. intros c [].
Defined.

(** C6 as worded fails: one collection whose search returns a candidate
    and whose top score is -0.5 gives the signal 0.0, which is not the
    maximum of the per-collection top scores. *)
Lemma confidence_negative_counterexample :
  observed_top_scores negative_env "refund policy" 20 5 = [(- (1 # 2))%Q]
  /\ (search_all_collections negative_env "refund policy" 20 5).2 = 0%Q
  /\ ~ is_max_of (search_all_collections negative_env "refund policy" 20 5).2
                 (observed_top_scores negative_env "refund policy" 20 5).
Proof.
  split; [reflexivity|]. split; [reflexivity|].
  intros [(y & Hy & Heq) _]. vm_compute in Hy.
  destruct Hy as [<-|[]]. vm_compute in Heq. discriminate Heq.
Qed.

(** ** Sessions *)

Section Sessions.
Variable E : Env.

Lemma get_or_create_known (sid : string) (w : World) :
  PyStr.truthy sid = true -> known sid w = true ->
  get_or_create_session E (Some sid) w = (sid, w).
Proof. intros Ht Hk. unfold get_or_create_session. now rewrite Ht, Hk. Qed.

Lemma get_or_create_unknown (sid : string) (w : World) :
  known sid w = false ->
  get_or_create_session E (Some sid) w
  = (uuid4 E (uuid_calls w),
     mkWorld (<[uuid4 E (uuid_calls w) :=
                  mkSession (uuid4 E (uuid_calls w)) [] None
                            (now_isoformat E (clock_reads w))]> (sessions w))
             (S (uuid_calls w)) (S (clock_reads w)) (llm_calls w) (trace w)).
Proof.
  intros Hk. unfold get_or_create_session. rewrite Hk.
  now rewrite andb_false_r.
Qed.

(** The session that [get_or_create_session] returns is in the store. *)
Lemma get_or_create_present (session_id : option string) (w : World) :
  exists s,
    sessions (snd (get_or_create_session E session_id w))
      !! fst (get_or_create_session E session_id w) = Some s.
Proof.
  unfold get_or_create_session.
  destruct session_id as [sid|].
  - destruct (PyStr.truthy sid && known sid w) eqn:H.
    + apply andb_prop in H as [_ H]. unfold known in H. cbn [fst snd].
      destruct (sessions w !! sid) as [s|]; [eauto | discriminate].
    + cbn [fst snd sessions]. rewrite lookup_insert_eq. eauto.
  - cbn [fst snd sessions]. rewrite lookup_insert_eq. eauto.
Qed.

Lemma append_message_lookup (sid : string) (r : Role) (c : string)
    (w : World) (s : Session) :
  sessions w !! sid = Some s ->
  sessions (append_message E sid r c w) !! sid
  = Some (push_message (mkMessage r c (now_isoformat E (clock_reads w))) s).
Proof.
  intros H. unfold append_message. cbn [sessions].
  rewrite lookup_alter_eq, H. reflexivity.
Qed.

Lemma append_message_other (sid sid' : string) (r : Role) (c : string) (w : World) :
  sid <> sid' ->
  sessions (append_message E sid r c w) !! sid' = sessions w !! sid'.
Proof.
  intros H. unfold append_message. cbn [sessions].
  now rewrite lookup_alter_ne.
Qed.

Lemma valid_request_inv (req : Request) :
  valid_request req = true ->
  exists sid, req_session_id req = Some sid
              /\ PyStr.truthy sid = true
              /\ PyStr.truthy (query_text req) = true.
Proof.
  unfold valid_request, query_text. intros H.
  apply andb_prop in H as [Hs Hq].
  destruct (req_session_id req) as [sid|]; [|discriminate]. eauto.
Qed.

(** A request that fails validation is answered 400 and changes
    nothing. *)
Lemma query_rejected (req : Request) (w : World) :
  valid_request req = false ->
  exists msg, query E req w = (JsonError 400 msg, w).
Proof.
  unfold valid_request, query. intros H.
  destruct (req_session_id req) as [sid|]; [|eauto].
  destruct (PyStr.truthy sid); cbn [negb]; [|eauto].
  cbn [andb] in H. rewrite H. cbn [negb]. eauto.
Qed.

(** A request that passes validation is answered by the [try] block,
    run after the user message is logged. *)
Lemma query_valid (req : Request) (w : World) :
  valid_request req = true ->
  query E req w
  = match answer E (request_session E req w) (query_text req)
                 (world_with_user_message E req w) with
    | (Ok response, w3) => (response, w3)
    | (Raise e, w3) => (JsonError 500 e, w3)
    end.
Proof.
  intros H. destruct (valid_request_inv req H) as (sid & Hs & Ht & Hq).
  unfold query, world_with_user_message, request_session.
  rewrite Hs, Ht. fold (query_text req). rewrite Hq. cbn [negb].
  destruct (get_or_create_session E (Some sid) w) as [sid' w1].
  reflexivity.
Qed.

Lemma request_session_present (req : Request) (w : World) :
  exists s1,
    sessions (snd (get_or_create_session E (req_session_id req) w))
      !! request_session E req w = Some s1
    /\ sessions (world_with_user_message E req w) !! request_session E req w
       = Some (push_message
                 (mkMessage user (query_text req)
                    (now_isoformat E
                       (clock_reads
                          (snd (get_or_create_session E (req_session_id req) w)))))
                 s1).
Proof.
  destruct (get_or_create_present (req_session_id req) w) as [s1 H1].
  exists s1. split; [exact H1|].
  unfold world_with_user_message. now apply append_message_lookup.
Qed.

End Sessions.

(** ** The handler monad *)

Lemma keeps_ret {A} (a : A) : keeps_sessions (ret a).
Proof. intros w. reflexivity. Qed.

Lemma keeps_lift {A} (r : Res A) : keeps_sessions (lift r).
Proof. intros w. reflexivity. Qed.

Lemma keeps_bind {A B} (m : M A) (k : A -> M B) :
  keeps_sessions m -> (forall a, keeps_sessions (k a)) ->
  keeps_sessions (bind m k).
Proof.
  intros Hm Hk w. unfold bind. specialize (Hm w).
  destruct (m w) as [[a|e] w1]; cbn [snd] in *.
  - now rewrite Hk.
  - exact Hm.
Qed.

Lemma keeps_generate (E : Env) (prompt : string) : keeps_sessions (generate E prompt).
Proof. intros w. reflexivity. Qed.

Lemma keeps_search (E : Env) (q : string) : keeps_sessions (search E q).
Proof. intros w. reflexivity. Qed.

Lemma keeps_read_session (sid : string) : keeps_sessions (read_session sid).
Proof. intros w. unfold read_session. now destruct (sessions w !! sid). Qed.

Lemma gen_ret {A} (a : A) : generates_at_most 0 (ret a).
Proof. intros w. exists []. split; [now rewrite app_nil_r | reflexivity]. Qed.

Lemma gen_lift {A} (r : Res A) : generates_at_most 0 (lift r).
Proof. intros w. exists []. split; [now rewrite app_nil_r | reflexivity]. Qed.

Lemma gen_generate (E : Env) (prompt : string) :
  generates_at_most 1 (generate E prompt).
Proof. intros w. exists [EvGenerate prompt]. split; reflexivity. Qed.

Lemma gen_search (E : Env) (q : string) : generates_at_most 0 (search E q).
Proof. intros w. exists [EvSearch q]. split; reflexivity. Qed.

Lemma gen_read_session (sid : string) : generates_at_most 0 (read_session sid).
Proof.
  intros w. exists []. unfold read_session.
  destruct (sessions w !! sid); split; try reflexivity; now rewrite app_nil_r.
Qed.

Lemma gen_weaken {A} (n n' : nat) (m : M A) :
  n <= n' -> generates_at_most n m -> generates_at_most n' m.
Proof.
  intros Hle H w. destruct (H w) as (evs & Ht & Hn).
  exists evs. split; [exact Ht | lia].
Qed.

Lemma gen_bind {A B} (a b : nat) (m : M A) (k : A -> M B) :
  generates_at_most a m -> (forall x, generates_at_most b (k x)) ->
  generates_at_most (a + b) (bind m k).
Proof.
  intros Hm Hk w. unfold bind. destruct (Hm w) as (e1 & Ht1 & Hn1).
  destruct (m w) as [[x|e] w1]; cbn [snd] in *.
  - destruct (Hk x w1) as (e2 & Ht2 & Hn2).
    exists (e1 ++ e2)%list. split.
    + now rewrite Ht2, Ht1, app_assoc.
    + rewrite filter_app, length_app. lia.
  - exists e1. split; [exact Ht1 | lia].
Qed.

(** ** The steps of the [try] block *)

Section Steps.
Variable E : Env.

Lemma retrieve_generic (q : string) (w : World) :
  is_generic_query E q = Ok true ->
  retrieve E q w = (Ok (mkRetrieval "" [] [] true None), w).
Proof. intros H. unfold retrieve, bind, lift. now rewrite H. Qed.

Lemma retrieve_searched (q : string) (w : World) :
  is_generic_query E q = Ok false ->
  retrieve E q w
  = let '(fused, combined_meta, max_score) :=
      search_all_collections E q (TOPK_DENSE E) (TOPK_FINAL E) in
    let w1 := mkWorld (sessions w) (uuid_calls w) (clock_reads w) (llm_calls w)
                      (trace w ++ [EvSearch q])%list in
    if PyList.truthy fused && PyList.truthy combined_meta then
      match make_context E fused combined_meta with
      | Ok (context_block, pages, source_meta) =>
          (Ok (mkRetrieval context_block pages source_meta
                 (score_ltb max_score (LOW_CONFIDENCE_THRESH E)
                  || (length source_meta =? 0)%nat)
                 (Some combined_meta)), w1)
      | Raise e => (Raise e, w1)
      end
    else (Ok (mkRetrieval "" [] [] true (Some combined_meta)), w1).
Proof.
  intros H. unfold retrieve, bind, lift, search. rewrite H. cbn [negb].
  destruct (search_all_collections E q (TOPK_DENSE E) (TOPK_FINAL E))
    as [[fused cm] ms].
  destruct (PyList.truthy fused && PyList.truthy cm); [|reflexivity].
  destruct (make_context E fused cm) as [[[ctx pg] sm]|e]; reflexivity.
Qed.

Lemma truthy_length {A} (l : list A) :
  PyList.truthy l = negb (length l =? 0)%nat.
Proof. now destruct l. Qed.

(** What a returned decision says about the query. *)
Lemma retrieve_gate (q : string) (w w1 : World) (r : Retrieval) :
  retrieve E q w = (Ok r, w1) ->
  exists g,
    is_generic_query E q = Ok g
    /\ (g = true -> w1 = w /\ use_general r = true)
    /\ (g = false ->
        trace w1 = (trace w ++ [EvSearch q])%list /\ sessions w1 = sessions w
        /\ llm_calls w1 = llm_calls w)
    /\ (use_general r = false <->
        g = false
        /\ ~ (confidence_signal E q < LOW_CONFIDENCE_THRESH E)%Q
        /\ returned_candidates E q <> []
        /\ returned_metadata E q <> []
        /\ exists ctx pg sm,
             make_context E (returned_candidates E q) (returned_metadata E q)
             = Ok (ctx, pg, sm)
             /\ sm <> [])
    /\ (use_general r = false ->
        exists combined_meta first_key rest,
          search_meta r = Some combined_meta
          /\ combined_meta
             = (search_all_collections E q (TOPK_DENSE E) (TOPK_FINAL E)).1.2
          /\ PyDict.keys combined_meta = first_key :: rest
          /\ PyList.truthy (source_meta r) = true
          /\ make_context E (returned_candidates E q) (returned_metadata E q)
             = Ok (context_block r, pages r, source_meta r)).
Proof.
  intros H. destruct (is_generic_query E q) as [[|]|e] eqn:Hg.
  - rewrite (retrieve_generic q w Hg) in H. inversion H; subst.
    exists true. cbn [use_general].
    split; [reflexivity|]. split; [now split|]. split; [discriminate|].
    split; [|discriminate].
    split; [discriminate | intros (Hf & _); discriminate Hf].
  - rewrite (retrieve_searched q w Hg) in H. exists false.
    unfold confidence_signal, returned_candidates, returned_metadata.
    destruct (search_all_collections E q (TOPK_DENSE E) (TOPK_FINAL E))
      as [[fused cm] ms]. cbn [fst snd] in *.
    split; [reflexivity|]. split; [discriminate|].
    destruct (PyList.truthy fused && PyList.truthy cm) eqn:Ht.
    + apply andb_prop in Ht as [Hfu Hcm].
      destruct (make_context E fused cm) as [[[ctx pg] sm]|e]; [|discriminate].
      inversion H; subst. cbn [use_general search_meta source_meta
                                context_block pages trace sessions llm_calls].
      split; [intros _; repeat split|]. split; [split|].
      * intros Hu. apply orb_false_elim in Hu as [Hlt Hlen].
        split; [reflexivity|]. split.
        { intros Hlow. apply score_ltb_lt in Hlow. congruence. }
        split; [intros ->; discriminate|]. split; [intros ->; discriminate|].
        exists ctx, pg, sm. split; [reflexivity|]. intros ->. discriminate.
      * intros (_ & Hhigh & _ & _ & ctx' & pg' & sm' & [= _ _ <-] & Hsm).
        apply orb_false_intro.
        { destruct (score_ltb ms (LOW_CONFIDENCE_THRESH E)) eqn:Hlt;
            [|reflexivity].
          apply score_ltb_lt in Hlt. contradiction. }
        { destruct sm; [congruence | reflexivity]. }
      * intros Hu. apply orb_false_elim in Hu as [_ Hu].
        destruct cm as [|[k v] cm']; [discriminate|].
        exists ((k, v) :: cm'), k, (map fst cm').
        repeat split. rewrite truthy_length, Hu. reflexivity.
    + inversion H; subst. cbn [use_general trace sessions llm_calls].
      split; [intros _; repeat split|]. split; [|discriminate].
      split; [discriminate|].
      intros (_ & _ & Hfu & Hcm & _).
      destruct fused; [congruence|]. destruct cm; [congruence|].
      discriminate Ht.
  - unfold retrieve, bind, lift in H. rewrite Hg in H. discriminate.
Qed.

Lemma keeps_retrieve (q : string) : keeps_sessions (retrieve E q).
Proof.
  intros w. destruct (is_generic_query E q) as [[|]|e] eqn:Hg.
  - now rewrite retrieve_generic.
  - rewrite (retrieve_searched q w Hg).
    destruct (search_all_collections E q (TOPK_DENSE E) (TOPK_FINAL E))
      as [[fused cm] ms].
    destruct (PyList.truthy fused && PyList.truthy cm); [|reflexivity].
    destruct (make_context E fused cm) as [[[ctx pg] sm]|e]; reflexivity.
  - unfold retrieve, bind, lift. now rewrite Hg.
Qed.

Lemma gen_retrieve (q : string) : generates_at_most 0 (retrieve E q).
Proof.
  intros w. destruct (is_generic_query E q) as [[|]|e] eqn:Hg.
  - rewrite retrieve_generic by exact Hg. exists [].
    split; [now rewrite app_nil_r | reflexivity].
  - rewrite (retrieve_searched q w Hg). exists [EvSearch q].
    destruct (search_all_collections E q (TOPK_DENSE E) (TOPK_FINAL E))
      as [[fused cm] ms].
    destruct (PyList.truthy fused && PyList.truthy cm);
      [destruct (make_context E fused cm) as [[[ctx pg] sm]|e]|];
      split; reflexivity.
  - unfold retrieve, bind, lift. rewrite Hg. exists [].
    split; [now rewrite app_nil_r | reflexivity].
Qed.

Lemma cite_eq (r : Retrieval) (final_answer : string) (pg : list Z) (w : World) :
  cite E r final_answer pg w
  = (if negb (use_general r) && PyList.truthy pg
     then add_inline_citations E final_answer pg
     else Ok final_answer, w).
Proof.
  unfold cite. now destruct (negb (use_general r) && PyList.truthy pg).
Qed.

(** The generator failed on a grounded attempt: the extractive answer is
    built from the first key of the metadata mapping. *)
Lemma settle_failure_grounded (q cs raw : string) (r : Retrieval) (w : World)
    (combined_meta : Dict ChunkMeta) (first_key : string) (rest : list string) :
  PyStr.startswith LLM_ERROR raw = true ->
  use_general r = false ->
  PyList.truthy (source_meta r) = true ->
  search_meta r = Some combined_meta ->
  PyDict.keys combined_meta = first_key :: rest ->
  settle E q cs r raw w
  = (match minimal_extractive_fallback E [(first_key, 0%Q)] combined_meta with
     | Ok final_answer => Ok (final_answer, pages r)
     | Raise e => Raise e
     end, w).
Proof.
  intros Hs Hu Ht Hm Hk. unfold settle. rewrite Hs, Hu, Ht, Hm, Hk.
  cbn [negb andb]. unfold bind, lift, ret.
  now destruct (minimal_extractive_fallback E [(first_key, 0%Q)] combined_meta).
Qed.

(** The generator failed on a generic attempt. *)
Lemma settle_failure_generic (q cs raw : string) (r : Retrieval) (w : World) :
  PyStr.startswith LLM_ERROR raw = true ->
  use_general r = true ->
  settle E q cs r raw w = (Ok (APOLOGY, pages r), w).
Proof. intros Hs Hu. unfold settle. now rewrite Hs, Hu. Qed.

(** No retry: the attempt is generic, or its answer is usable. *)
Lemma settle_kept (q cs raw : string) (r : Retrieval) (w : World) :
  PyStr.startswith LLM_ERROR raw = false ->
  negb (use_general r) && unusable (PyStr.strip raw) = false ->
  settle E q cs r raw w = (Ok (PyStr.strip raw, pages r), w).
Proof.
  intros Hs Hu. unfold settle. rewrite Hs.
  unfold unusable in Hu. now rewrite Hu.
Qed.

(** The retry. *)
Lemma settle_retry (q cs raw prompt : string) (r : Retrieval) (w : World) :
  PyStr.startswith LLM_ERROR raw = false ->
  use_general r = false ->
  unusable (PyStr.strip raw) = true ->
  build_prompt E q cs (context_block r) true = Ok prompt ->
  settle E q cs r raw w
  = (match llm_generate E (llm_calls w) prompt with
     | Ok alt =>
         if PyStr.startswith LLM_ERROR alt then Ok (PyStr.strip raw, pages r)
         else Ok (PyStr.strip alt, [])
     | Raise e => Raise e
     end, after_generate prompt w).
Proof.
  intros Hs Hu Hn Hp. unfold settle. rewrite Hs, Hu.
  unfold unusable in Hn. rewrite Hn. cbn [negb andb].
  unfold bind, lift, generate, after_generate. rewrite Hp.
  destruct (llm_generate E (llm_calls w) prompt) as [alt|e]; [|reflexivity].
  now destruct (PyStr.startswith LLM_ERROR alt).
Qed.

Lemma keeps_settle (q cs raw : string) (r : Retrieval) :
  keeps_sessions (settle E q cs r raw).
Proof.
  unfold settle.
  destruct (PyStr.startswith LLM_ERROR raw).
  - destruct (negb (use_general r) && PyList.truthy (source_meta r));
      [|apply keeps_ret].
    destruct (search_meta r) as [cm|]; [|apply keeps_lift].
    destruct (PyDict.keys cm); [apply keeps_lift|].
    apply keeps_bind; [apply keeps_lift | intros; apply keeps_ret].
  - destruct (negb (use_general r) && _); [|apply keeps_ret].
    apply keeps_bind; [apply keeps_lift | intros p].
    apply keeps_bind; [apply keeps_generate | intros alt].
    destruct (negb (PyStr.startswith LLM_ERROR alt)); apply keeps_ret.
Qed.

Lemma gen_settle (q cs raw : string) (r : Retrieval) :
  generates_at_most 1 (settle E q cs r raw).
Proof.
  unfold settle.
  destruct (PyStr.startswith LLM_ERROR raw).
  - apply (gen_weaken 0); [lia|].
    destruct (negb (use_general r) && PyList.truthy (source_meta r));
      [|apply gen_ret].
    destruct (search_meta r) as [cm|]; [|apply gen_lift].
    destruct (PyDict.keys cm); [apply gen_lift|].
    apply (gen_bind 0 0); [apply gen_lift | intros; apply gen_ret].
  - destruct (negb (use_general r) && _);
      [|apply (gen_weaken 0); [lia | apply gen_ret]].
    apply (gen_bind 0 1); [apply gen_lift | intros p].
    apply (gen_bind 1 0); [apply gen_generate | intros alt].
    destruct (negb (PyStr.startswith LLM_ERROR alt)); apply gen_ret.
Qed.

End Steps.

(** ** The [try] block as a whole *)

Section Answer.
Variable E : Env.

Lemma answer_eq (sid q : string) (w : World) (s : Session) :
  sessions w !! sid = Some s ->
  answer E sid q w
  = match retrieve E q w with
    | (Raise e, w1) => (Raise e, w1)
    | (Ok r, w1) =>
        match build_prompt E q (conversation_summary s) (context_block r)
                           (use_general r) with
        | Raise e => (Raise e, w1)
        | Ok prompt =>
            match llm_generate E (llm_calls w1) prompt with
            | Raise e => (Raise e, after_generate prompt w1)
            | Ok raw_answer =>
                match settle E q (conversation_summary s) r raw_answer
                             (after_generate prompt w1) with
                | (Raise e, w3) => (Raise e, w3)
                | (Ok settled, w3) =>
                    match (if negb (use_general r) && PyList.truthy (snd settled)
                           then add_inline_citations E (fst settled) (snd settled)
                           else Ok (fst settled)) with
                    | Raise e => (Raise e, w3)
                    | Ok final_answer =>
                        (Ok (JsonAnswer final_answer
                               (if negb (use_general r) then source_meta r else [])
                               (negb (use_general r))
                               (now_isoformat E (S (clock_reads w3)))),
                         after_reply E sid final_answer w3)
                    end
                end
            end
        end
    end.
Proof.
  intros Hs. unfold answer, bind at 1. unfold read_session at 1. rewrite Hs.
  unfold bind at 1. destruct (retrieve E q w) as [[r|e] w1]; [|reflexivity].
  unfold bind at 1, lift at 1.
  destruct (build_prompt E q (conversation_summary s) (context_block r)
              (use_general r)) as [prompt|e]; [|reflexivity].
  unfold bind at 1, generate at 1. fold (after_generate prompt w1).
  destruct (llm_generate E (llm_calls w1) prompt) as [raw|e]; [|reflexivity].
  unfold bind at 1.
  destruct (settle E q (conversation_summary s) r raw (after_generate prompt w1))
    as [[settled|e] w3]; [|reflexivity].
  unfold bind at 1. rewrite cite_eq.
  destruct (if negb (use_general r) && PyList.truthy (snd settled)
            then add_inline_citations E (fst settled) (snd settled)
            else Ok (fst settled)) as [final|e]; reflexivity.
Qed.

(** An exception anywhere in the [try] block leaves the session store
    as it was when the block was entered. *)
Lemma answer_raise_keeps_sessions (sid q e : string) (w w' : World) (s : Session) :
  sessions w !! sid = Some s ->
  answer E sid q w = (Raise e, w') ->
  sessions w' = sessions w.
Proof.
  intros Hs H. rewrite (answer_eq sid q w s Hs) in H.
  pose proof (keeps_retrieve E q w) as K1.
  destruct (retrieve E q w) as [[r|e1] w1]; cbn [snd] in K1;
    [|inversion H; subst; exact K1].
  destruct (build_prompt E q (conversation_summary s) (context_block r)
              (use_general r)) as [prompt|e2];
    [|inversion H; subst; exact K1].
  destruct (llm_generate E (llm_calls w1) prompt) as [raw|e3];
    [|inversion H; subst; exact K1].
  pose proof (keeps_settle E q (conversation_summary s) raw r
                (after_generate prompt w1)) as K2.
  destruct (settle E q (conversation_summary s) r raw (after_generate prompt w1))
    as [[settled|e4] w3]; cbn [snd] in K2;
    [|inversion H; subst; rewrite K2; exact K1].
  destruct (if negb (use_general r) && PyList.truthy (snd settled)
            then add_inline_citations E (fst settled) (snd settled)
            else Ok (fst settled)) as [final|e5];
    [discriminate|].
  inversion H; subst. rewrite K2. exact K1.
Qed.

Lemma gen_answer (sid q : string) : generates_at_most 2 (answer E sid q).
Proof.
  unfold answer.
  apply (gen_bind 0 2); [apply gen_read_session | intros s].
  apply (gen_bind 0 2); [apply gen_retrieve | intros r].
  apply (gen_bind 0 2); [apply gen_lift | intros prompt].
  apply (gen_bind 1 1); [apply gen_generate | intros raw].
  apply (gen_bind 1 0); [apply gen_settle | intros settled].
  apply (gen_bind 0 0);
    [unfold cite; destruct (negb (use_general r) && _);
     [apply gen_lift | apply gen_ret] | intros final].
  apply (gen_bind 0 0).
  { intros w. exists []. split; [cbn; now rewrite app_nil_r | reflexivity]. }
  intros _. apply (gen_bind 0 0).
  { intros w. exists []. split; [cbn; now rewrite app_nil_r | reflexivity]. }
  intros ts. apply gen_ret.
Qed.

(** No request calls the language model more than twice. *)
Lemma query_generates_at_most_twice (req : Request) (w : World) :
  exists evs,
    trace (snd (query E req w)) = (trace w ++ evs)%list
    /\ length (filter (fun e => is_generate e = true) evs) <= 2.
Proof.
  destruct (valid_request req) eqn:Hv.
  - rewrite (query_valid E req w Hv).
    destruct (gen_answer (request_session E req w) (query_text req)
                (world_with_user_message E req w)) as (evs & Ht & Hn).
    exists evs. split; [|exact Hn].
    assert (Hw : trace (world_with_user_message E req w) = trace w).
    { unfold world_with_user_message, append_message, get_or_create_session.
      cbn [trace]. destruct (req_session_id req) as [sid|]; [|reflexivity].
      now destruct (PyStr.truthy sid && known sid w). }
    rewrite Hw in Ht.
    destruct (answer E (request_session E req w) (query_text req)
                (world_with_user_message E req w)) as [[resp|e] w3];
      exact Ht.
  - destruct (query_rejected E req w Hv) as [msg ->].
    exists []. split; [cbn; now rewrite app_nil_r | cbn; lia].
Qed.

End Answer.

(** ** The handler as a whole *)

Section QueryRuns.
Variable E : Env.

(** A valid request, step by step. *)
Lemma query_eq (req : Request) (w : World) :
  valid_request req = true ->
  query E req w
  = match retrieve E (query_text req) (world_with_user_message E req w) with
    | (Raise e, w1) => (JsonError 500 e, w1)
    | (Ok r, w1) =>
        match build_prompt E (query_text req) (request_summary E req w)
                           (context_block r) (use_general r) with
        | Raise e => (JsonError 500 e, w1)
        | Ok prompt =>
            match llm_generate E (llm_calls w1) prompt with
            | Raise e => (JsonError 500 e, after_generate prompt w1)
            | Ok raw_answer =>
                match settle E (query_text req) (request_summary E req w) r
                             raw_answer (after_generate prompt w1) with
                | (Raise e, w3) => (JsonError 500 e, w3)
                | (Ok settled, w3) =>
                    match (if negb (use_general r) && PyList.truthy (snd settled)
                           then add_inline_citations E (fst settled) (snd settled)
                           else Ok (fst settled)) with
                    | Raise e => (JsonError 500 e, w3)
                    | Ok final_answer =>
                        (JsonAnswer final_answer
                           (if negb (use_general r) then source_meta r else [])
                           (negb (use_general r))
                           (now_isoformat E (S (clock_reads w3))),
                         after_reply E (request_session E req w) final_answer w3)
                    end
                end
            end
        end
    end.
Proof.
  intros Hv. rewrite (query_valid E req w Hv).
  destruct (request_session_present E req w) as (s1 & _ & Hs).
  rewrite (answer_eq E _ _ _ _ Hs). unfold request_summary. rewrite Hs.
  destruct (retrieve E (query_text req) (world_with_user_message E req w))
    as [[r|e] w1]; [|reflexivity].
  destruct (build_prompt E (query_text req) _ (context_block r) (use_general r))
    as [prompt|e]; [|reflexivity].
  destruct (llm_generate E (llm_calls w1) prompt) as [raw|e]; [|reflexivity].
  destruct (settle E (query_text req) _ r raw (after_generate prompt w1))
    as [[settled|e] w3]; [|reflexivity].
  destruct (if negb (use_general r) && PyList.truthy (snd settled)
            then add_inline_citations E (fst settled) (snd settled)
            else Ok (fst settled)); reflexivity.
Qed.

(** What a request does to the session store. *)
Lemma query_sessions (req : Request) (w : World) :
  valid_request req = true ->
  (exists e, fst (query E req w) = JsonError 500 e
             /\ sessions (snd (query E req w))
                = sessions (world_with_user_message E req w))
  \/ (exists final src used ts w3,
        fst (query E req w) = JsonAnswer final src used ts
        /\ sessions w3 = sessions (world_with_user_message E req w)
        /\ sessions (snd (query E req w))
           = sessions (append_message E (request_session E req w) assistant
                                      final w3)).
Proof.
  intros Hv. rewrite (query_eq req w Hv).
  pose proof (keeps_retrieve E (query_text req)
                (world_with_user_message E req w)) as K1.
  destruct (retrieve E (query_text req) (world_with_user_message E req w))
    as [[r|e] w1]; cbn [snd] in K1; [|left; eauto].
  destruct (build_prompt E (query_text req) _ (context_block r) (use_general r))
    as [prompt|e]; [|left; eauto].
  destruct (llm_generate E (llm_calls w1) prompt) as [raw|e]; [|left; eauto].
  pose proof (keeps_settle E (query_text req) (request_summary E req w) raw r
                (after_generate prompt w1)) as K2.
  destruct (settle E (query_text req) _ r raw (after_generate prompt w1))
    as [[settled|e] w3]; cbn [snd] in K2.
  - assert (K3 : sessions w3 = sessions (world_with_user_message E req w))
      by (rewrite K2; exact K1).
    destruct (if negb (use_general r) && PyList.truthy (snd settled)
              then add_inline_citations E (fst settled) (snd settled)
              else Ok (fst settled)) as [final|e].
    + right. exists final. do 3 eexists. exists w3. repeat split. exact K3.
    + left. eauto.
  - left. exists e. split; [reflexivity|]. cbn [snd]. rewrite K2. exact K1.
Qed.

End QueryRuns.

(** ** Errors and the session log *)

(** C10. A request answered with the handler's error response (status
    500) had passed validation; its user message had been appended to
    the message log of its session before the failing step, it is still
    the last message of that log when the error response is returned,
    and no assistant message follows it. *)
Theorem error_keeps_user_message (E : Env) (req : Request) (w w' : World) (e : string) :
  query E req w = (JsonError 500 e, w') ->
  valid_request req = true
  /\ sessions w' = sessions (world_with_user_message E req w)
  /\ exists s1 s' ts,
       sessions (snd (get_or_create_session E (req_session_id req) w))
         !! request_session E req w = Some s1
       /\ sessions w' !! request_session E req w = Some s'
       /\ messages s' = (messages s1 ++ [mkMessage user (query_text req) ts])%list.
Proof.
  intros H.
  assert (Hv : valid_request req = true).
  { destruct (valid_request req) eqn:Hv; [reflexivity|].
    destruct (query_rejected E req w Hv) as [msg Hq].
    rewrite Hq in H. discriminate H. }
  split; [exact Hv|].
  assert (Hs : sessions w' = sessions (world_with_user_message E req w)).
  { destruct (query_sessions E req w Hv) as [(e' & _ & Hk)|(f & s & u & t & w3 & Hr & _)].
    - rewrite H in Hk. exact Hk.
    - rewrite H in Hr. discriminate Hr. }
  split; [exact Hs|].
  destruct (request_session_present E req w) as (s1 & H1 & H2).
  exists s1. eexists. eexists. split; [exact H1|].
  split; [rewrite Hs; exact H2 | reflexivity].
Qed.

Lemma error_keeps_user_message_witness :
  valid_request refund_request = true
  /\ sessions (snd (query llm_down_env refund_request empty_world))
     = sessions (world_with_user_message llm_down_env refund_request empty_world)
  /\ exists s1 s' ts,
       sessions (snd (get_or_create_session llm_down_env
                        (req_session_id refund_request) empty_world))
         !! request_session llm_down_env refund_request empty_world = Some s1
       /\ sessions (snd (query llm_down_env refund_request empty_world))
            !! request_session llm_down_env refund_request empty_world = Some s'
       /\ messages s'
          = (messages s1 ++ [mkMessage user (query_text refund_request) ts])%list.
Proof.
  apply (error_keeps_user_message llm_down_env refund_request empty_world
           (snd (query llm_down_env refund_request empty_world))
           "ConnectionError").
  vm_compute. reflexivity.
Defined.

(** ** Session resolution and input validation *)




(** ** The confidence gate *)

Lemma user_message_trace (E : Env) (req : Request) (w : World) :
  trace (world_with_user_message E req w) = trace w.
Proof.
  unfold world_with_user_message, append_message, get_or_create_session.
  cbn [trace]. destruct (req_session_id req) as [sid|]; [|reflexivity].
  now destruct (PyStr.truthy sid && known sid w).
Qed.





(** ** Generation failure *)

(** C4, as the code has it. When the first generation returns the error
    sentinel: a generic attempt is answered with the fixed apology text,
    without sources; a grounded attempt is answered with the extractive
    answer that [minimal_extractive_fallback] builds from the first key
    of the metadata mapping of the search (the first collected candidate
    that has metadata, in the order of the directory listing) paired
    with the score 0.0, annotated with citations when pages are tracked;
    the response is an error only if one of these two helpers raises. *)
Theorem generation_failure_degrades
    (E : Env) (req : Request) (w w1 : World) (r : Retrieval) (prompt raw : string) :
  valid_request req = true ->
  retrieve E (query_text req) (world_with_user_message E req w) = (Ok r, w1) ->
  build_prompt E (query_text req) (request_summary E req w) (context_block r)
               (use_general r) = Ok prompt ->
  llm_generate E (llm_calls w1) prompt = Ok raw ->
  PyStr.startswith LLM_ERROR raw = true ->
  (use_general r = true ->
   query E req w
   = (JsonAnswer APOLOGY [] false (now_isoformat E (S (clock_reads w1))),
      after_reply E (request_session E req w) APOLOGY (after_generate prompt w1)))
  /\ (use_general r = false ->
      exists combined_meta first_key rest,
        combined_meta
        = (search_all_collections E (query_text req) (TOPK_DENSE E) (TOPK_FINAL E)).1.2
        /\ PyDict.keys combined_meta = first_key :: rest
        /\ query E req w
           = match minimal_extractive_fallback E [(first_key, 0%Q)] combined_meta with
             | Raise e => (JsonError 500 e, after_generate prompt w1)
             | Ok extractive =>
                 match (if PyList.truthy (pages r)
                        then add_inline_citations E extractive (pages r)
                        else Ok extractive) with
                 | Raise e => (JsonError 500 e, after_generate prompt w1)
                 | Ok final_answer =>
                     (JsonAnswer final_answer (source_meta r) true
                                 (now_isoformat E (S (clock_reads w1))),
                      after_reply E (request_session E req w) final_answer
                                  (after_generate prompt w1))
                 end
             end).
Proof.
  intros Hv Hr Hp Hllm Hs. split; intros Hu.
  - rewrite (query_eq E req w Hv), Hr, Hp, Hllm.
    rewrite (settle_failure_generic E _ _ _ _ _ Hs Hu). rewrite Hu.
    reflexivity.
  - destruct (retrieve_gate E _ _ _ _ Hr) as (g & _ & _ & _ & _ & Hmeta).
    destruct (Hmeta Hu) as (cm & k & ks & Hsm & Hcm & Hk & Ht & _).
    exists cm, k, ks. split; [exact Hcm|]. split; [exact Hk|].
    rewrite (query_eq E req w Hv), Hr, Hp, Hllm.
    rewrite (settle_failure_grounded E _ _ _ _ _ cm k ks Hs Hu Ht Hsm Hk).
    destruct (minimal_extractive_fallback E [(k, 0%Q)] cm) as [fa|e];
      [|reflexivity].
    cbn [fst snd]. rewrite Hu. cbn [negb andb].
    destruct (PyList.truthy (pages r)); [|reflexivity].
    destruct (add_inline_citations E fa (pages r)); reflexivity.
Qed.

Lemma generation_failure_degrades_witness :
  fst (query sentinel_env refund_request empty_world)
  = JsonAnswer "Shipping takes 3 days. [p.2] [p.7]"
               [mkSource "alpha.pdf" 2; mkSource "beta.pdf" 7] true
               "2025-01-01T00:00:00.3".
Proof.
  destruct (generation_failure_degrades sentinel_env refund_request empty_world
              (world_after_retrieval sentinel_env refund_request empty_world)
              (retrieval_of sentinel_env refund_request empty_world)
              (first_prompt sentinel_env refund_request empty_world)
              "__LLM_ERROR__ quota exceeded")
    as [_ Hg]; [vm_compute; reflexivity .. |].
  destruct (Hg eq_refl) as (cm & k & ks & Hcm & Hk & Hq).
  rewrite Hq. subst cm. vm_compute in Hk. injection Hk as <- <-.
  vm_compute. reflexivity.
Defined.

(** C4 as worded fails: [beta] is listed first and scores 0.5, [alpha]
    scores 0.9 and is ranked first; when the generator returns the error
    sentinel the answer is built from the chunk of [beta], not from the
    highest-ranked chunk, and it carries citation markers. *)
Lemma fallback_highest_ranked_counterexample :
  (search_all_collections sentinel_env "What is the refund policy?" 20 5).1.1
  = [("alpha::0", 9 # 10); ("beta::0", 1 # 2)]
  /\ minimal_extractive_fallback sentinel_env [("alpha::0", 9 # 10)]
       (search_all_collections sentinel_env "What is the refund policy?" 20 5).1.2
     = Ok "Refunds are processed within 14 days."
  /\ fst (query sentinel_env refund_request empty_world)
     = JsonAnswer "Shipping takes 3 days. [p.2] [p.7]"
                  [mkSource "alpha.pdf" 2; mkSource "beta.pdf" 7] true
                  "2025-01-01T00:00:00.3"
  /\ "Shipping takes 3 days. [p.2] [p.7]" <> "Refunds are processed within 14 days.".
Proof. repeat split; try (vm_compute; reflexivity). discriminate. Qed.

(** ** Citation annotation *)

(** C3, as the code has it. Citation annotation is applied exactly when
    the attempt is grounded and the pages left after error handling and
    retry are not empty. A generic answer is never annotated, and with no
    page left the answer text is returned as it is. The generation-failure
    path leaves the tracked pages in place, so the extractive answer of a
    grounded attempt is annotated like a generated one. *)
Theorem citation_iff_grounded_with_pages
    (E : Env) (req : Request) (w w1 w3 : World) (r : Retrieval)
    (prompt raw final_answer : string) (pg : list Z) :
  valid_request req = true ->
  retrieve E (query_text req) (world_with_user_message E req w) = (Ok r, w1) ->
  build_prompt E (query_text req) (request_summary E req w) (context_block r)
               (use_general r) = Ok prompt ->
  llm_generate E (llm_calls w1) prompt = Ok raw ->
  settle E (query_text req) (request_summary E req w) r raw
         (after_generate prompt w1) = (Ok (final_answer, pg), w3) ->
  (use_general r = false -> PyList.truthy pg = true ->
   query E req w
   = match add_inline_citations E final_answer pg with
     | Ok cited =>
         (JsonAnswer cited (source_meta r) true
                     (now_isoformat E (S (clock_reads w3))),
          after_reply E (request_session E req w) cited w3)
     | Raise e => (JsonError 500 e, w3)
     end)
  /\ (use_general r = true \/ pg = [] ->
      query E req w
      = (JsonAnswer final_answer
                    (if negb (use_general r) then source_meta r else [])
                    (negb (use_general r))
                    (now_isoformat E (S (clock_reads w3))),
         after_reply E (request_session E req w) final_answer w3))
  /\ (PyStr.startswith LLM_ERROR raw = true -> pg = pages r).
Proof.
  intros Hv Hr Hp Hllm Hset.
  assert (Hq := query_eq E req w Hv).
  rewrite Hr, Hp, Hllm, Hset in Hq. cbn [fst snd] in Hq.
  split; [|split].
  - intros Hu Ht. rewrite Hq, Hu, Ht. cbn [negb andb].
    now destruct (add_inline_citations E final_answer pg).
  - intros [Hu| ->]; rewrite Hq.
    + now rewrite Hu.
    + cbn [PyList.truthy]. now rewrite andb_false_r.
  - intros Hs. unfold settle in Hset. rewrite Hs in Hset.
    destruct (negb (use_general r) && PyList.truthy (source_meta r)).
    + destruct (search_meta r) as [cm|]; [|discriminate].
      destruct (PyDict.keys cm) as [|k ks]; [discriminate|].
      unfold bind, lift, ret in Hset.
      destruct (minimal_extractive_fallback E [(k, 0%Q)] cm); [|discriminate].
      now inversion Hset.
    + now inversion Hset.
Qed.

Lemma citation_iff_grounded_with_pages_witness :
  query tie_env refund_request empty_world
  = match add_inline_citations tie_env "Refunds take 14 days." [7%Z; 2%Z] with
    | Ok cited =>
        (JsonAnswer cited
           (source_meta (retrieval_of tie_env refund_request empty_world)) true
           (now_isoformat tie_env
              (S (clock_reads
                    (after_generate (first_prompt tie_env refund_request empty_world)
                       (world_after_retrieval tie_env refund_request empty_world))))),
         after_reply tie_env (request_session tie_env refund_request empty_world)
           cited
           (after_generate (first_prompt tie_env refund_request empty_world)
              (world_after_retrieval tie_env refund_request empty_world)))
    | Raise e =>
        (JsonError 500 e,
         after_generate (first_prompt tie_env refund_request empty_world)
           (world_after_retrieval tie_env refund_request empty_world))
    end.
Proof.
  destruct (citation_iff_grounded_with_pages tie_env refund_request empty_world
              (world_after_retrieval tie_env refund_request empty_world)
              (after_generate (first_prompt tie_env refund_request empty_world)
                 (world_after_retrieval tie_env refund_request empty_world))
              (retrieval_of tie_env refund_request empty_world)
              (first_prompt tie_env refund_request empty_world)
              "Refunds take 14 days." "Refunds take 14 days." [7%Z; 2%Z])
    as [Hc _]; [vm_compute; reflexivity .. |].
  apply Hc; vm_compute; reflexivity.
Defined.

(** C3 as worded fails: the generator returns the error sentinel on a
    grounded attempt; the answer is the extractive fallback, and it is
    annotated with the tracked pages. *)
Lemma citation_on_fallback_counterexample :
  llm_generate sentinel_env 0 (first_prompt sentinel_env refund_request empty_world)
  = Ok "__LLM_ERROR__ quota exceeded"
  /\ settle sentinel_env (query_text refund_request)
       (request_summary sentinel_env refund_request empty_world)
       (retrieval_of sentinel_env refund_request empty_world)
       "__LLM_ERROR__ quota exceeded" empty_world
     = (Ok ("Shipping takes 3 days.", [2%Z; 7%Z]), empty_world)
  /\ fst (query sentinel_env refund_request empty_world)
     = JsonAnswer "Shipping takes 3 days. [p.2] [p.7]"
                  [mkSource "alpha.pdf" 2; mkSource "beta.pdf" 7] true
                  "2025-01-01T00:00:00.3"
  /\ "Shipping takes 3 days. [p.2] [p.7]" <> "Shipping takes 3 days.".
Proof. repeat split; try (vm_compute; reflexivity). discriminate. Qed.

(** ** The retry *)

(** C2, as the code has it. When the answer of a grounded attempt, once
    stripped, contains the marker ["Not found in the document"] or is
    shorter than 4 characters, the language model is called once more,
    with the prompt built in general mode; if that call does not return
    the error sentinel, its stripped text is the answer of the response,
    without citation annotation, and the trace holds exactly the two
    generations. The answer ["Not found in the document."] calls for the
    retry. No request ever calls the language model more than twice. *)
Theorem unusable_answer_retried_once
    (E : Env) (req : Request) (w w1 : World) (r : Retrieval)
    (prompt raw retry_prompt alt : string) :
  valid_request req = true ->
  retrieve E (query_text req) (world_with_user_message E req w) = (Ok r, w1) ->
  use_general r = false ->
  build_prompt E (query_text req) (request_summary E req w) (context_block r)
               false = Ok prompt ->
  llm_generate E (llm_calls w1) prompt = Ok raw ->
  PyStr.startswith LLM_ERROR raw = false ->
  unusable (PyStr.strip raw) = true ->
  build_prompt E (query_text req) (request_summary E req w) (context_block r)
               true = Ok retry_prompt ->
  llm_generate E (S (llm_calls w1)) retry_prompt = Ok alt ->
  PyStr.startswith LLM_ERROR alt = false ->
  query E req w
  = (JsonAnswer (PyStr.strip alt) (source_meta r) true
                (now_isoformat E (S (clock_reads w1))),
     after_reply E (request_session E req w) (PyStr.strip alt)
                 (after_generate retry_prompt (after_generate prompt w1)))
  /\ trace (snd (query E req w))
     = (trace w1 ++ [EvGenerate prompt; EvGenerate retry_prompt])%list
  /\ unusable (PyStr.strip "Not found in the document.") = true
  /\ forall req0 w0, exists evs,
       trace (snd (query E req0 w0)) = (trace w0 ++ evs)%list
       /\ length (filter (fun e => is_generate e = true) evs) <= 2.
Proof.
  intros Hv Hr Hu Hp Hllm Hs Hn Hp2 Hllm2 Hs2.
  assert (Hq : query E req w
               = (JsonAnswer (PyStr.strip alt) (source_meta r) true
                             (now_isoformat E (S (clock_reads w1))),
                  after_reply E (request_session E req w) (PyStr.strip alt)
                    (after_generate retry_prompt (after_generate prompt w1)))).
  { rewrite (query_eq E req w Hv), Hr, Hu, Hp, Hllm.
    rewrite (settle_retry E _ _ _ retry_prompt r _ Hs Hu Hn Hp2).
    cbn [after_generate llm_calls]. rewrite Hllm2, Hs2.
    cbn [fst snd PyList.truthy]. rewrite andb_false_r. reflexivity. }
  split; [exact Hq|]. split; [|split].
  - rewrite Hq. cbn [snd after_reply append_message after_generate trace].
    now rewrite <- app_assoc.
  - reflexivity.
  - intros req0 w0. apply query_generates_at_most_twice.
Qed.

Lemma unusable_answer_retried_once_witness :
  fst (query marker_env refund_request empty_world)
  = JsonAnswer "General answer."
               [mkSource "alpha.pdf" 2; mkSource "beta.pdf" 7] true
               "2025-01-01T00:00:00.3"
  /\ length (filter (fun e => is_generate e = true)
               (trace (snd (query marker_env refund_request empty_world)))) = 2.
Proof.
  destruct (unusable_answer_retried_once marker_env refund_request empty_world
              (world_after_retrieval marker_env refund_request empty_world)
              (retrieval_of marker_env refund_request empty_world)
              (first_prompt marker_env refund_request empty_world)
              "Not found in the document."
              "GENERAL What is the refund policy? [User: What is the refund policy?]"
              " General answer. ")
    as (Hq & Ht & _); [vm_compute; reflexivity .. |].
  split.
  - rewrite Hq. vm_compute. reflexivity.
  - rewrite Ht. vm_compute. reflexivity.
Defined.

(** C2 as worded fails: the grounded answer is ["Not found in document."];
    it does not contain the marker of the code and is 22 characters long,
    so the language model is called once only and the answer is returned
    with its citations. *)
Lemma phrase_without_article_counterexample :
  unusable (PyStr.strip "Not found in document.") = false
  /\ fst (query phrase_env refund_request empty_world)
     = JsonAnswer "Not found in document. [p.2] [p.7]"
                  [mkSource "alpha.pdf" 2; mkSource "beta.pdf" 7] true
                  "2025-01-01T00:00:00.3"
  /\ filter (fun e => is_generate e = true)
            (trace (snd (query phrase_env refund_request empty_world)))
     = [EvGenerate (first_prompt phrase_env refund_request empty_world)].
Proof. repeat split; vm_compute; reflexivity. Qed.

(** * Further properties of the server *)

(** ** The directory scan and the merge *)

(** The directory scan as a filter of the listing. *)
Lemma get_all_collections_filter (E : Env) :
  get_all_collections E
  = match vs_base_listing E with
    | None => []
    | Some entries =>
        map (entry_collection E)
            (List.filter (fun e => is_dir e && has_meta_json e) entries)
    end.
Proof.
  unfold get_all_collections. destruct (vs_base_listing E) as [entries|];
    [|reflexivity].
  assert (H : forall acc,
             fold_left
               (fun collections entry =>
                  let folder_path := os_path_join (VS_BASE E) (folder_name entry) in
                  if is_dir entry then
                    if has_meta_json entry then
                      (collections
                       ++ [mkCollectionRef (folder_name entry) folder_path])%list
                    else collections
                  else collections) entries acc
             = (acc ++ map (entry_collection E)
                         (List.filter (fun e => is_dir e && has_meta_json e)
                                      entries))%list).
  { induction entries as [|e l IH]; intros acc; simpl.
    - now rewrite app_nil_r.
    - rewrite IH. destruct (is_dir e), (has_meta_json e); simpl;
        try reflexivity.
      now rewrite <- app_assoc. }
  now rewrite H.
Qed.

(** X1. [get_all_collections] lists, in the order of the directory
    listing, exactly the entries that are directories holding a
    [meta.json]: a collection is listed if and only if it is the
    collection of such an entry, its id being the folder name and its
    path the folder joined to [VS_BASE]; a missing [VS_BASE] gives no
    collection; and there are never more collections than entries. *)
Theorem get_all_collections_listing (E : Env) :
  get_all_collections E
  = match vs_base_listing E with
    | None => []
    | Some entries =>
        map (entry_collection E)
            (List.filter (fun e => is_dir e && has_meta_json e) entries)
    end
  /\ (forall c,
        In c (get_all_collections E)
        <-> exists entries entry,
              vs_base_listing E = Some entries
              /\ In entry entries
              /\ is_dir entry = true
              /\ has_meta_json entry = true
              /\ c = entry_collection E entry)
  /\ (forall entries,
        vs_base_listing E = Some entries ->
        length (get_all_collections E) <= length entries).
Proof.
  split; [apply get_all_collections_filter|].
  rewrite get_all_collections_filter. split.
  - intros c. destruct (vs_base_listing E) as [entries|].
    + rewrite in_map_iff. split.
      * intros (entry & <- & Hin). apply List.filter_In in Hin as [Hin Hd].
        apply andb_prop in Hd as [Hd Hm].
        exists entries, entry. repeat split; assumption.
      * intros (entries' & entry & [= <-] & Hin & Hd & Hm & ->).
        exists entry. split; [reflexivity|].
        apply List.filter_In. split; [exact Hin | now rewrite Hd, Hm].
    + split; [intros [] | intros (entries & entry & H & _); discriminate H].
  - intros entries ->. rewrite length_map. apply List.filter_length_le.
Qed.

(** X2. The number of returned candidates: for [final_k >= 0] it is the
    smaller of [final_k] and the number of collected candidates; a
    negative [final_k] is a Python slice from the end and drops the
    [-final_k] lowest-ranked candidates. *)
Theorem returned_count (E : Env) (q : string) (topk_dense final_k : Z) :
  length (search_all_collections E q topk_dense final_k).1.1
  = if (0 <=? final_k)%Z then
      Nat.min (Z.to_nat final_k)
              (length (collected_candidates E q topk_dense final_k))
    else
      length (collected_candidates E q topk_dense final_k)
      - Z.to_nat (- final_k).
Proof.
  rewrite search_all_collections_eq. cbn [fst].
  unfold PyList.slice_to.
  assert (Hlen : length (sort_desc (all_results (collect E q topk_dense final_k)))
                 = length (collected_candidates E q topk_dense final_k)).
  { rewrite <- all_results_collect. apply Permutation_length, sort_desc_perm. }
  destruct (0 <=? final_k)%Z eqn:Hk; rewrite length_take, Hlen.
  - reflexivity.
  - apply Z.leb_gt in Hk. lia.
Qed.

(** X3. When [final_k] is positive and some collection returned a
    candidate, the first returned candidate is one of the collected
    candidates and none of them has a greater score, whichever
    collection it came from. *)
Theorem best_candidate_first (E : Env) (q : string) (topk_dense final_k : Z) :
  (0 < final_k)%Z ->
  collected_candidates E q topk_dense final_k <> [] ->
  exists best rest,
    (search_all_collections E q topk_dense final_k).1.1 = best :: rest
    /\ In best (collected_candidates E q topk_dense final_k)
    /\ forall cand, In cand (collected_candidates E q topk_dense final_k) ->
                    (snd cand <= snd best)%Q.
Proof.
  intros Hk Hne. rewrite search_all_collections_eq. cbn [fst].
  rewrite <- all_results_collect in *.
  pose proof (sort_desc_perm (all_results (collect E q topk_dense final_k))) as Hp.
  pose proof (sort_desc_sorted (all_results (collect E q topk_dense final_k))) as Hs.
  destruct (sort_desc (all_results (collect E q topk_dense final_k)))
    as [|best sorted] eqn:Hsort.
  - apply Permutation_nil in Hp. congruence.
  - exists best, (take (Z.to_nat final_k - 1) sorted). split.
    + unfold PyList.slice_to. destruct (0 <=? final_k)%Z eqn:H0;
        [|apply Z.leb_gt in H0; lia].
      destruct (Z.to_nat final_k) as [|n] eqn:Hn; [lia|].
      simpl. now rewrite Nat.sub_0_r.
    + split; [apply (Permutation_in _ Hp); now left|].
      intros cand Hc. apply (Permutation_in _ (Permutation_sym Hp)) in Hc.
      unfold desc_by_score in Hs. inversion Hs as [|? ? _ Hall]; subst.
      destruct Hc as [<-|Hc]; [apply Qle_refl|].
      rewrite List.Forall_forall in Hall. now apply Hall.
Qed.

Lemma best_candidate_first_witness :
  exists best rest,
    (search_all_collections top1_env "refund policy" 20 1).1.1 = best :: rest
    /\ In best (collected_candidates top1_env "refund policy" 20 1)
    /\ forall cand, In cand (collected_candidates top1_env "refund policy" 20 1) ->
                    (snd cand <= snd best)%Q.
Proof.
  apply (best_candidate_first top1_env "refund policy" 20 1).
  - reflexivity.
  - vm_compute. discriminate.
Defined.

Lemma search_collection_skips (E : Env) (q : string) (topk_dense final_k : Z)
    (st : AggState) (c : CollectionRef) :
  collection_results E q topk_dense final_k c = None ->
  search_collection E q topk_dense final_k st c = st.
Proof. intros H. now rewrite search_collection_eq, H. Qed.

(** X4. A collection that fails to load, or whose search raises, is
    skipped without a trace: the merged list, the metadata mapping and
    the confidence signal are those of a search over the directory
    listing without the entries that do not contribute. *)
Theorem failing_collections_are_skipped
    (E : Env) (q : string) (topk_dense final_k : Z) (entries : list DirEntry) :
  vs_base_listing E = Some entries ->
  search_all_collections
    (with_listing E (Some (List.filter (contributes E q topk_dense final_k) entries)))
    q topk_dense final_k
  = search_all_collections E q topk_dense final_k.
Proof.
  intros Hl. rewrite !search_all_collections_eq.
  assert (Hc : collect
                 (with_listing E
                    (Some (List.filter (contributes E q topk_dense final_k) entries)))
                 q topk_dense final_k
               = collect E q topk_dense final_k).
  { unfold collect. rewrite !get_all_collections_filter, Hl.
    cbn [vs_base_listing with_listing].
    change (entry_collection (with_listing E _)) with (entry_collection E).
    change (search_collection (with_listing E _) q topk_dense final_k)
      with (search_collection E q topk_dense final_k).
    clear Hl. generalize (mkAggState [] [] 0%Q) as st.
    induction entries as [|e l IH]; intros st; [reflexivity|].
    cbn [List.filter].
    destruct (contributes E q topk_dense final_k e) eqn:Hc.
    - unfold contributes in Hc. apply andb_prop in Hc as [Hd Hr].
      cbn [List.filter]. rewrite Hd. cbn [map fold_left]. apply IH.
    - destruct (is_dir e && has_meta_json e) eqn:Hd; [|apply IH].
      unfold contributes in Hc. rewrite Hd in Hc. cbn [andb] in Hc.
      destruct (collection_results E q topk_dense final_k (entry_collection E e))
        as [p|] eqn:Hr; [discriminate|].
      cbn [map fold_left]. rewrite (search_collection_skips _ _ _ _ _ _ Hr).
      apply IH. }
  now rewrite Hc.
Qed.

Lemma failing_collections_are_skipped_witness :
  search_all_collections
    (with_listing tie_env
       (Some (List.filter (contributes tie_env "refund policy" 20 5)
                [mkDirEntry "beta" true true; mkDirEntry "gone" true true;
                 mkDirEntry "alpha" true true])))
    "refund policy" 20 5
  = search_all_collections
      (with_listing tie_env
         (Some [mkDirEntry "beta" true true; mkDirEntry "gone" true true;
                mkDirEntry "alpha" true true]))
      "refund policy" 20 5.
Proof.
  apply (failing_collections_are_skipped
           (with_listing tie_env
              (Some [mkDirEntry "beta" true true; mkDirEntry "gone" true true;
                     mkDirEntry "alpha" true true]))
           "refund policy" 20 5).
  reflexivity.
Defined.

(** ** Global ids *)

Lemma no_colon_cons (c : ascii) (s : string) :
  has_colon (String c s) = false -> c <> ":"%char /\ has_colon s = false.
Proof.
  unfold has_colon. cbn [list_ascii_of_string existsb].
  intros H. apply orb_false_elim in H as [Hc Hs].
  split; [|exact Hs]. intros ->. now rewrite Ascii.eqb_refl in Hc.
Qed.

(** X5. Two candidates of collections whose ids hold no colon have the
    same global id only if they are the same chunk of the same
    collection. *)
Theorem global_id_injective (c1 c2 : CollectionRef) (chunk1 chunk2 : string) :
  has_colon (coll_id c1) = false ->
  has_colon (coll_id c2) = false ->
  global_id c1 chunk1 = global_id c2 chunk2 ->
  coll_id c1 = coll_id c2 /\ chunk1 = chunk2.
Proof.
  unfold global_id. generalize (coll_id c1) as a, (coll_id c2) as b.
  induction a as [|x a IH]; intros b Ha Hb H.
  - destruct b as [|y b].
    + change (String ":" (String ":" chunk1) = String ":" (String ":" chunk2)) in H.
      injection H as ->. now split.
    + change (String ":" (String ":" chunk1) = String y (b ++ "::" ++ chunk2)) in H.
      apply no_colon_cons in Hb as [Hy _]. injection H as H _. congruence.
  - destruct b as [|y b].
    + change (String x (a ++ "::" ++ chunk1) = String ":" (String ":" chunk2)) in H.
      apply no_colon_cons in Ha as [Hx _]. injection H as H _. congruence.
    + change (String x (a ++ "::" ++ chunk1) = String y (b ++ "::" ++ chunk2)) in H.
      injection H as -> H.
      apply no_colon_cons in Ha as [_ Ha]. apply no_colon_cons in Hb as [_ Hb].
      destruct (IH b Ha Hb H) as [-> ->]. now split.
Qed.

Lemma global_id_injective_witness :
  coll_id (mkCollectionRef "alpha" "data/vector_store/alpha")
  = coll_id (mkCollectionRef "alpha" "elsewhere")
  /\ "7" = "7".
Proof.
  apply (global_id_injective (mkCollectionRef "alpha" "data/vector_store/alpha")
                             (mkCollectionRef "alpha" "elsewhere") "7" "7");
    reflexivity.
Defined.

(** X6. The separator is not escaped: a chunk id that holds ["::"] in one
    collection and a collection id that holds ["::"] give two different
    candidates the same global id. *)
Theorem global_id_collision (a b c path1 path2 : string) :
  global_id (mkCollectionRef a path1) (b ++ "::" ++ c)
  = global_id (mkCollectionRef (a ++ "::" ++ b) path2) c.
Proof.
  unfold global_id. cbn [coll_id].
  now rewrite !string_app_assoc.
Qed.

(** ** Metadata lookups *)

Lemma dict_get_set {V} (g k : string) (v : V) (d : Dict V) :
  PyDict.get g (PyDict.set k v d)
  = if String.eqb g k then Some v else PyDict.get g d.
Proof.
  induction d as [|[k' v'] r IH]; cbn [PyDict.set PyDict.get]; [reflexivity|].
  destruct (String.eqb k k') eqn:Hk; cbn [PyDict.get].
  - apply String.eqb_eq in Hk. subst k'.
    now destruct (String.eqb g k).
  - rewrite IH. destruct (String.eqb g k') eqn:Hg; [|reflexivity].
    apply String.eqb_eq in Hg. subst k'.
    apply String.eqb_neq in Hk.
    destruct (String.eqb g k) eqn:Hgk; [|reflexivity].
    apply String.eqb_eq in Hgk. congruence.
Qed.

Section Provenance.
Variable E : Env.
Variables (q : string) (topk_dense final_k : Z).

Lemma add_results_from_store (c : CollectionRef) (vs : VectorStore)
    (results part : list (string * Score)) (st : AggState) :
  In c (get_all_collections E) ->
  collection_results E q topk_dense final_k c = Some (vs, results) ->
  incl part results ->
  (forall g m, PyDict.get g (combined_meta st) = Some m ->
               from_store E q topk_dense final_k g m) ->
  forall g m,
    PyDict.get g (combined_meta (fold_left (add_result c vs) part st)) = Some m ->
    from_store E q topk_dense final_k g m.
Proof.
  intros Hc Hres. revert st.
  induction part as [|[cid s] part IH]; intros st Hincl Hst; [exact Hst|].
  cbn [fold_left]. apply IH.
  - intros r Hr. apply Hincl. now right.
  - intros g m. unfold add_result. cbn [combined_meta].
    destruct (PyDict.get cid (meta vs)) as [m0|] eqn:Hm0; [|apply Hst].
    rewrite dict_get_set.
    destruct (String.eqb g (global_id c cid)) eqn:Hg; [|apply Hst].
    apply String.eqb_eq in Hg. intros [= <-].
    exists c, vs, results, cid, s. repeat split; try assumption.
    apply Hincl. now left.
Qed.

Lemma fold_from_store (l : list CollectionRef) (st : AggState) :
  incl l (get_all_collections E) ->
  (forall g m, PyDict.get g (combined_meta st) = Some m ->
               from_store E q topk_dense final_k g m) ->
  forall g m,
    PyDict.get g
      (combined_meta (fold_left (search_collection E q topk_dense final_k) l st))
    = Some m ->
    from_store E q topk_dense final_k g m.
Proof.
  revert st. induction l as [|c l IH]; intros st Hincl Hst; [exact Hst|].
  cbn [fold_left]. apply IH.
  - intros c' Hc'. apply Hincl. now right.
  - rewrite search_collection_eq.
    destruct (collection_results E q topk_dense final_k c)
      as [[vs results]|] eqn:Hres; [|exact Hst].
    cbn [combined_meta].
    apply (add_results_from_store c vs results results st);
      [apply Hincl; now left | exact Hres | apply incl_refl | exact Hst].
Qed.

End Provenance.

(** X7. Every entry of the returned metadata mapping is the metadata
    that a collection of the listing holds for a chunk returned by its
    search, stored under that chunk's global id: looking a global id up
    in the mapping gives what looking the chunk id up in the collection
    gives. *)
Theorem mapping_entries_from_stores
    (E : Env) (q : string) (topk_dense final_k : Z) (g : string) (m : ChunkMeta) :
  PyDict.get g (search_all_collections E q topk_dense final_k).1.2 = Some m ->
  from_store E q topk_dense final_k g m.
Proof.
  rewrite search_all_collections_eq. cbn [fst snd]. unfold collect.
  apply fold_from_store; [apply incl_refl|].
  intros g' m' H. discriminate H.
Qed.

Lemma mapping_entries_from_stores_witness :
  from_store top1_env "refund policy" 20 1 "beta::0"
             (mkChunkMeta "beta.pdf" 7 "Shipping takes 3 days.").
Proof.
  apply (mapping_entries_from_stores top1_env "refund policy" 20 1).
  reflexivity.
Defined.

(** ** More on the conversation summary *)

Lemma string_length_app (a b : string) :
  String.length (a ++ b) = String.length a + String.length b.
Proof.
  induction a as [|x a IH]; [reflexivity|].
  change (S (String.length (a ++ b)) = S (String.length a + String.length b)).
  now rewrite IH.
Qed.

Lemma conversation_summary_parts (s : Session) :
  messages s <> [] ->
  conversation_summary s
  = PyStr.join " | " (map summary_part (PyList.last_n 10 (messages s))).
Proof.
  intros H. unfold conversation_summary.
  destruct (messages s); [congruence | reflexivity].
Qed.

Lemma summary_part_length (msg : Message) :
  String.length (summary_part msg) <= 111.
Proof.
  unfold summary_part. rewrite !string_length_app.
  destruct (take_prefix 100 (content msg)) as (rest & _ & Hl). rewrite Hl.
  assert (Hn : Nat.min 100 (String.length (content msg)) <= 100) by lia.
  revert Hn. generalize (Nat.min 100 (String.length (content msg))) as n.
  intros n Hn. destruct (role msg); cbn; lia.
Qed.

Lemma join_length (sep : string) (parts : list string) (bound : nat) :
  (forall p, In p parts -> String.length p <= bound) ->
  parts <> [] ->
  String.length (PyStr.join sep parts) + String.length sep
  <= length parts * (bound + String.length sep).
Proof.
  intros Hb Hne. induction parts as [|p rest IH]; [congruence|].
  destruct rest as [|p' rest].
  - cbn [PyStr.join length]. specialize (Hb p (or_introl eq_refl)). lia.
  - change (PyStr.join sep (p :: p' :: rest))
      with (p ++ sep ++ PyStr.join sep (p' :: rest)).
    rewrite !string_length_app.
    assert (IH' := IH (fun x Hx => Hb x (or_intror Hx)) ltac:(discriminate)).
    specialize (Hb p (or_introl eq_refl)).
    cbn [length] in *. lia.
Qed.

(** X8. The conversation summary is bounded whatever the length of the
    log and of its messages: at most ten parts of at most 111 characters
    and nine separators, 1137 characters in all. *)
Theorem conversation_summary_length (s : Session) :
  String.length (conversation_summary s) <= 1137.
Proof.
  destruct (messages s) as [|m l] eqn:Hm.
  - unfold conversation_summary. rewrite Hm. cbn. lia.
  - rewrite conversation_summary_parts by (rewrite Hm; discriminate).
    pose proof (join_length " | "
                  (map summary_part (PyList.last_n 10 (messages s))) 111) as H.
    destruct (last_n_suffix 10 (messages s)) as [_ Hlen].
    assert (Hne : map summary_part (PyList.last_n 10 (messages s)) <> []).
    { intros Hnil. apply (f_equal (@length _)) in Hnil.
      rewrite length_map, Hlen, Hm in Hnil. cbn in Hnil. lia. }
    rewrite Hm in *. specialize (H ltac:(
      intros p Hp; apply in_map_iff in Hp as (msg & <- & _);
      apply summary_part_length) Hne).
    rewrite length_map, Hlen in H. cbn [String.length] in H.
    assert (Nat.min 10 (length (m :: l)) <= 10) by lia. nia.
Qed.

(** X9. The summary is a function of the last ten messages only: older
    messages, and the other fields of the session, do not enter it. *)
Theorem conversation_summary_window
    (s1 s2 : Session) (older window : list Message) :
  length window = 10 ->
  messages s1 = (older ++ window)%list ->
  messages s2 = window ->
  conversation_summary s1 = conversation_summary s2.
Proof.
  intros Hl H1 H2.
  assert (Hw : window <> []) by (intros ->; discriminate).
  rewrite !conversation_summary_parts.
  - rewrite H1, H2. unfold PyList.last_n.
    rewrite length_app, Hl.
    replace (length older + 10 - 10) with (length older) by lia.
    rewrite drop_app_length. now rewrite Nat.sub_diag.
  - now rewrite H2.
  - rewrite H1. destruct older; [exact Hw | discriminate].
Qed.

Lemma conversation_summary_window_witness :
  conversation_summary (sample_session long_log)
  = conversation_summary (sample_session (drop 2 long_log)).
Proof.
  apply (conversation_summary_window (sample_session long_log)
           (sample_session (drop 2 long_log)) (take 2 long_log) (drop 2 long_log));
    reflexivity.
Defined.

Lemma join_snoc (sep : string) (parts : list string) (p : string) :
  PyStr.join sep (parts ++ [p])
  = match parts with
    | [] => p
    | _ => (PyStr.join sep parts ++ sep) ++ p
    end.
Proof.
  induction parts as [|x rest IH]; [reflexivity|].
  destruct rest as [|y rest].
  - cbn [app PyStr.join]. now rewrite string_app_assoc.
  - change (PyStr.join sep ((x :: y :: rest) ++ [p]))
      with (x ++ sep ++ PyStr.join sep ((y :: rest) ++ [p])).
    rewrite IH.
    change (PyStr.join sep (x :: y :: rest))
      with (x ++ sep ++ PyStr.join sep (y :: rest)).
    now rewrite !string_app_assoc.
Qed.

Lemma last_n_snoc {A} (n : nat) (l : list A) (x : A) :
  PyList.last_n (S n) (l ++ [x]) = (PyList.last_n n l ++ [x])%list.
Proof.
  unfold PyList.last_n. rewrite length_app. cbn [length].
  replace (length l + 1 - S n) with (length l - n) by lia.
  rewrite drop_app_le by lia. reflexivity.
Qed.

(** The summary of a log that ends with a user message. *)
Lemma conversation_summary_snoc (s : Session) (log : list Message) (c t : string) :
  messages s = (log ++ [mkMessage user c t])%list ->
  conversation_summary s
  = match PyList.last_n 9 log with
    | [] => "User: " ++ PyStr.take 100 c
    | earlier =>
        (PyStr.join " | " (map summary_part earlier) ++ " | ")
        ++ "User: " ++ PyStr.take 100 c
    end.
Proof.
  intros H. rewrite conversation_summary_parts
    by (rewrite H; destruct log; discriminate).
  rewrite H, last_n_snoc, map_app. cbn [map]. rewrite join_snoc.
  destruct (PyList.last_n 9 log); reflexivity.
Qed.

(** X10. The summary that [query] hands to the prompt is taken after the
    user message is logged: it always ends with the label [User: ] and
    the first 100 characters of the stripped query text, so the marker of
    an empty log never reaches the prompt. *)
Theorem request_summary_ends_with_question (E : Env) (req : Request) (w : World) :
  exists earlier,
    request_summary E req w
    = earlier ++ "User: " ++ PyStr.take 100 (query_text req).
Proof.
  unfold request_summary.
  destruct (request_session_present E req w) as (s1 & _ & ->).
  rewrite (conversation_summary_snoc _ (messages s1) (query_text req)
             (now_isoformat E
                (clock_reads (snd (get_or_create_session E (req_session_id req) w)))))
    by reflexivity.
  destruct (PyList.last_n 9 (messages s1)); [exists ""; reflexivity|].
  eexists. reflexivity.
Qed.

(** ** More on the query handler *)

Lemma lstrip_blank (s : string) :
  (forall c, In c (list_ascii_of_string s) -> PyStr.is_space c = true) ->
  PyStr.lstrip s = "".
Proof.
  induction s as [|c s IH]; intros H; [reflexivity|].
  cbn [PyStr.lstrip]. rewrite (H c (or_introl eq_refl)).
  apply IH. intros c' Hc'. apply H. now right.
Qed.

(** X11. The two input checks of [query], in their order: without a
    session id, or with an empty one, the answer is 400 ["session_id
    required"] whatever the query text; with a session id and a query
    text that is absent or holds only white space, it is 400 ["query
    cannot be empty"]; in both cases nothing changes. *)
Theorem rejection_messages (E : Env) (req : Request) (w : World) :
  (req_session_id req = None \/ req_session_id req = Some "" ->
   query E req w = (JsonError 400 "session_id required", w))
  /\ (forall sid,
        req_session_id req = Some sid ->
        PyStr.truthy sid = true ->
        (forall c,
           In c (list_ascii_of_string
                   (match req_query req with Some text => text | None => "" end)) ->
           PyStr.is_space c = true) ->
        query E req w = (JsonError 400 "query cannot be empty", w)).
Proof.
  split.
  - intros [H|H]; unfold query; now rewrite H.
  - intros sid Hs Ht Hblank. unfold query. rewrite Hs, Ht. cbn [negb].
    unfold PyStr.strip. now rewrite (lstrip_blank _ Hblank).
Qed.

Lemma rejection_messages_witness :
  query tie_env (mkRequest (Some "abc") (Some "   ")) empty_world
  = (JsonError 400 "query cannot be empty", empty_world).
Proof.
  apply (proj2 (rejection_messages tie_env (mkRequest (Some "abc") (Some "   "))
                  empty_world) "abc").
  - reflexivity.
  - reflexivity.
  - intros c [<-|[<-|[<-|[]]]]; reflexivity.
Defined.

Lemma answered_session
    (E : Env) (req : Request) (w w' : World)
    (a : string) (src : list Source) (used : bool) (ts : string) :
  query E req w = (JsonAnswer a src used ts, w') ->
  exists s1 t1 t2,
    sessions (snd (get_or_create_session E (req_session_id req) w))
      !! request_session E req w = Some s1
    /\ sessions w' !! request_session E req w
       = Some (mkSession (session_id s1)
                 (messages s1
                  ++ [mkMessage user (query_text req) t1;
                      mkMessage assistant a t2])%list
                 (collection_id s1) (created_at s1)).
Proof.
  intros H.
  assert (Hv : valid_request req = true).
  { destruct (valid_request req) eqn:Hv; [reflexivity|].
    destruct (query_rejected E req w Hv) as [msg Hq].
    rewrite Hq in H. discriminate H. }
  destruct (request_session_present E req w) as (s1 & H1 & H2).
  destruct (query_sessions E req w Hv)
    as [(e & He & _)|(f & src' & u & t & w3 & Hr & K3 & Hk)].
  - rewrite H in He. discriminate He.
  - rewrite H in Hr, Hk. cbn [fst snd] in Hr, Hk. injection Hr as <- _ _ _.
    exists s1. eexists. eexists. split; [exact H1|].
    rewrite Hk.
    rewrite (append_message_lookup E _ assistant a w3 _
               ltac:(rewrite K3; exact H2)).
    unfold push_message. cbn [messages session_id collection_id created_at].
    now rewrite <- app_assoc.
Qed.

(** X12. When [query] returns an answer, the log of the session it
    worked on has grown by exactly two messages: the stripped query text
    as a user message, then the returned answer text as an assistant
    message. *)
Theorem answered_query_log
    (E : Env) (req : Request) (w w' : World)
    (a : string) (src : list Source) (used : bool) (ts : string) :
  query E req w = (JsonAnswer a src used ts, w') ->
  exists s1 s' t1 t2,
    sessions (snd (get_or_create_session E (req_session_id req) w))
      !! request_session E req w = Some s1
    /\ sessions w' !! request_session E req w = Some s'
    /\ messages s'
       = (messages s1
          ++ [mkMessage user (query_text req) t1; mkMessage assistant a t2])%list
    /\ session_id s' = session_id s1
    /\ collection_id s' = collection_id s1
    /\ created_at s' = created_at s1.
Proof.
  intros H. destruct (answered_session E req w w' a src used ts H)
    as (s1 & t1 & t2 & H1 & H2).
  exists s1. eexists. exists t1, t2.
  split; [exact H1|]. split; [exact H2|]. repeat split.
Qed.

Lemma answered_query_log_witness :
  exists s1 s' t1 t2,
    sessions (snd (get_or_create_session tie_env (req_session_id refund_request)
                     empty_world))
      !! request_session tie_env refund_request empty_world = Some s1
    /\ sessions (snd (query tie_env refund_request empty_world))
         !! request_session tie_env refund_request empty_world = Some s'
    /\ messages s'
       = (messages s1
          ++ [mkMessage user (query_text refund_request) t1;
              mkMessage assistant "Refunds take 14 days. [p.7] [p.2]" t2])%list
    /\ session_id s' = session_id s1
    /\ collection_id s' = collection_id s1
    /\ created_at s' = created_at s1.
Proof.
  apply (answered_query_log tie_env refund_request empty_world
           (snd (query tie_env refund_request empty_world))
           "Refunds take 14 days. [p.7] [p.2]"
           [mkSource "beta.pdf" 7; mkSource "alpha.pdf" 2] true
           "2025-01-01T00:00:00.3").
  vm_compute. reflexivity.
Defined.

Lemma get_or_create_other (E : Env) (session_id : option string) (w : World)
    (other : string) :
  other <> fst (get_or_create_session E session_id w) ->
  sessions (snd (get_or_create_session E session_id w)) !! other
  = sessions w !! other.
Proof.
  unfold get_or_create_session. destruct session_id as [sid|].
  - destruct (PyStr.truthy sid && known sid w); cbn [fst snd sessions];
      [reflexivity|].
    intros Hne. now rewrite lookup_insert_ne by congruence.
  - cbn [fst snd sessions]. intros Hne.
    now rewrite lookup_insert_ne by congruence.
Qed.

(** X13. A query touches one session only: every session other than the
    one the request works on is, after the request, what it was before,
    whether the request is rejected, fails or is answered. *)
Theorem query_leaves_other_sessions (E : Env) (req : Request) (w : World)
    (other : string) :
  other <> request_session E req w ->
  sessions (snd (query E req w)) !! other = sessions w !! other.
Proof.
  intros Hne. destruct (valid_request req) eqn:Hv.
  - assert (H2 : sessions (world_with_user_message E req w) !! other
                 = sessions w !! other).
    { unfold world_with_user_message.
      rewrite append_message_other by congruence.
      now apply get_or_create_other. }
    destruct (query_sessions E req w Hv)
      as [(e & _ & Hk)|(f & src & u & t & w3 & _ & K3 & Hk)]; rewrite Hk.
    + exact H2.
    + rewrite append_message_other by congruence. now rewrite K3.
  - destruct (query_rejected E req w Hv) as [msg ->]. reflexivity.
Qed.

Lemma query_leaves_other_sessions_witness :
  sessions (snd (query tie_env refund_request
                   (world_with (sample_session long_log)))) !! "s-1"
  = sessions (world_with (sample_session long_log)) !! "s-1".
Proof.
  apply (query_leaves_other_sessions tie_env refund_request
           (world_with (sample_session long_log)) "s-1").
  vm_compute. discriminate.
Defined.

(** X14. When the retry of an unusable grounded answer returns the error
    sentinel, the grounded answer is kept as it was, with its pages: it
    is annotated with citations and returned with its sources; the
    language model has been called twice. *)
Theorem failed_retry_keeps_grounded_answer
    (E : Env) (req : Request) (w w1 : World) (r : Retrieval)
    (prompt raw retry_prompt alt : string) :
  valid_request req = true ->
  retrieve E (query_text req) (world_with_user_message E req w) = (Ok r, w1) ->
  use_general r = false ->
  build_prompt E (query_text req) (request_summary E req w) (context_block r)
               false = Ok prompt ->
  llm_generate E (llm_calls w1) prompt = Ok raw ->
  PyStr.startswith LLM_ERROR raw = false ->
  unusable (PyStr.strip raw) = true ->
  build_prompt E (query_text req) (request_summary E req w) (context_block r)
               true = Ok retry_prompt ->
  llm_generate E (S (llm_calls w1)) retry_prompt = Ok alt ->
  PyStr.startswith LLM_ERROR alt = true ->
  query E req w
  = match (if PyList.truthy (pages r)
           then add_inline_citations E (PyStr.strip raw) (pages r)
           else Ok (PyStr.strip raw)) with
    | Ok final_answer =>
        (JsonAnswer final_answer (source_meta r) true
                    (now_isoformat E (S (clock_reads w1))),
         after_reply E (request_session E req w) final_answer
                     (after_generate retry_prompt (after_generate prompt w1)))
    | Raise e =>
        (JsonError 500 e, after_generate retry_prompt (after_generate prompt w1))
    end.
Proof.
  intros Hv Hr Hu Hp Hllm Hs Hn Hp2 Hllm2 Hs2.
  rewrite (query_eq E req w Hv), Hr, Hu, Hp, Hllm.
  rewrite (settle_retry E _ _ _ retry_prompt r _ Hs Hu Hn Hp2).
  cbn [after_generate llm_calls]. rewrite Hllm2, Hs2.
  cbn [fst snd negb andb].
  destruct (PyList.truthy (pages r)); [|reflexivity].
  now destruct (add_inline_citations E (PyStr.strip raw) (pages r)).
Qed.

Lemma failed_retry_keeps_grounded_answer_witness :
  fst (query retry_fails_env refund_request empty_world)
  = JsonAnswer "Not found in the document. [p.2] [p.7]"
               [mkSource "alpha.pdf" 2; mkSource "beta.pdf" 7] true
               "2025-01-01T00:00:00.3".
Proof.
  rewrite (failed_retry_keeps_grounded_answer retry_fails_env refund_request
             empty_world
             (world_after_retrieval retry_fails_env refund_request empty_world)
             (retrieval_of retry_fails_env refund_request empty_world)
             (first_prompt retry_fails_env refund_request empty_world)
             "Not found in the document."
             "GENERAL What is the refund policy? [User: What is the refund policy?]"
             "__LLM_ERROR__ timeout");
    vm_compute; reflexivity.
Defined.

(** X15. A low confidence signal switches the answer to general mode
    after the context has been built: when the search found candidates
    whose signal is below the threshold, the one prompt sent to the
    language model is what [build_prompt] makes, in general mode, of the
    context block retrieved for them (not of an empty one), and the
    response is generic, without sources. *)
Theorem low_confidence_prompt_keeps_context
    (E : Env) (req : Request) (w : World)
    (fused : list (string * Score)) (mapping : Dict ChunkMeta) (signal : Score)
    (ctx : string) (pg : list Z) (sm : list Source) (prompt raw : string) :
  valid_request req = true ->
  is_generic_query E (query_text req) = Ok false ->
  search_all_collections E (query_text req) (TOPK_DENSE E) (TOPK_FINAL E)
  = (fused, mapping, signal) ->
  PyList.truthy fused && PyList.truthy mapping = true ->
  make_context E fused mapping = Ok (ctx, pg, sm) ->
  (signal < LOW_CONFIDENCE_THRESH E)%Q ->
  build_prompt E (query_text req) (request_summary E req w) ctx true = Ok prompt ->
  llm_generate E (llm_calls w) prompt = Ok raw ->
  fst (query E req w)
  = JsonAnswer (if PyStr.startswith LLM_ERROR raw then APOLOGY
                else PyStr.strip raw)
               [] false
               (now_isoformat E
                  (S (clock_reads (world_with_user_message E req w))))
  /\ trace (snd (query E req w))
     = (trace w ++ [EvSearch (query_text req); EvGenerate prompt])%list.
Proof.
  intros Hv Hg Hsearch Ht Hctx Hlow Hp Hllm.
  assert (Hcalls : llm_calls (world_with_user_message E req w) = llm_calls w).
  { unfold world_with_user_message, append_message, get_or_create_session.
    cbn [llm_calls]. destruct (req_session_id req) as [sid|]; [|reflexivity].
    now destruct (PyStr.truthy sid && known sid w). }
  rewrite (query_eq E req w Hv).
  rewrite (retrieve_searched E _ _ Hg), Hsearch, Ht, Hctx.
  apply score_ltb_lt in Hlow. rewrite Hlow. cbn [orb context_block use_general].
  rewrite Hp. cbn [llm_calls]. rewrite Hcalls, Hllm.
  destruct (PyStr.startswith LLM_ERROR raw) eqn:Hs.
  - rewrite settle_failure_generic by (assumption || reflexivity).
    cbn [fst snd negb andb use_general after_reply append_message
         after_generate trace clock_reads].
    split; [reflexivity|].
    rewrite user_message_trace. now rewrite <- app_assoc.
  - rewrite settle_kept by (assumption || reflexivity).
    cbn [fst snd negb andb use_general after_reply append_message
         after_generate trace clock_reads].
    split; [reflexivity|].
    rewrite user_message_trace. now rewrite <- app_assoc.
Qed.

Lemma low_confidence_prompt_keeps_context_witness :
  trace (snd (query low_confidence_env refund_request empty_world))
  = [EvSearch "What is the refund policy?";
     EvGenerate
       "GENERAL What is the refund policy? [User: What is the refund policy?]"].
Proof.
  edestruct (low_confidence_prompt_keeps_context low_confidence_env refund_request
               empty_world
               [("beta::0", 1 # 5); ("alpha::0", 1 # 5)]
               (search_all_collections low_confidence_env
                  "What is the refund policy?" 20 5).1.2
               (1 # 5)
               "Shipping takes 3 days. Refunds are processed within 14 days."
               [7%Z; 2%Z]
               [mkSource "beta.pdf" 7; mkSource "alpha.pdf" 2]
               "GENERAL What is the refund policy? [User: What is the refund policy?]"
               "I do not know.")
    as [_ Ht]; [vm_compute; reflexivity .. | exact Ht].
Defined.

(** ** The session store under all endpoints *)

Section Store.
Variable E : Env.
Variable P : gmap string Session -> Prop.
Hypothesis Hstable : store_stable P.

Lemma get_or_create_stable (session_id : option string) (w : World) :
  P (sessions w) -> P (sessions (snd (get_or_create_session E session_id w))).
Proof.
  intros H. destruct Hstable as [Hins _]. unfold get_or_create_session.
  destruct session_id as [sid|].
  - destruct (PyStr.truthy sid && known sid w); cbn [snd sessions]; [exact H|].
    apply (Hins _ (mkSession _ [] None _)), H.
  - cbn [snd sessions]. apply (Hins _ (mkSession _ [] None _)), H.
Qed.

Lemma append_message_stable (sid : string) (r : Role) (c : string) (w : World) :
  P (sessions w) -> P (sessions (append_message E sid r c w)).
Proof.
  intros H. destruct Hstable as [_ Halt]. unfold append_message.
  cbn [sessions]. now apply Halt.
Qed.

Lemma query_stable (req : Request) (w : World) :
  P (sessions w) -> P (sessions (snd (query E req w))).
Proof.
  intros H. destruct (valid_request req) eqn:Hv.
  - assert (H2 : P (sessions (world_with_user_message E req w))).
    { unfold world_with_user_message.
      now apply append_message_stable, get_or_create_stable. }
    destruct (query_sessions E req w Hv)
      as [(e & _ & Hk)|(f & src & u & t & w3 & _ & K3 & Hk)]; rewrite Hk.
    + exact H2.
    + apply append_message_stable. now rewrite K3.
  - destruct (query_rejected E req w Hv) as [msg ->]. exact H.
Qed.

Lemma clear_session_stable (session_id : option string) (w : World) :
  P (sessions w) -> P (sessions (snd (clear_session session_id w))).
Proof.
  intros H. destruct Hstable as [_ Halt]. unfold clear_session.
  destruct session_id as [sid|]; [|exact H].
  destruct (negb (PyStr.truthy sid) || negb (known sid w)); [exact H|].
  cbn [snd sessions]. now apply Halt.
Qed.

Lemma upload_precheck_stable (req : UploadRequest) (w : World) :
  P (sessions w) -> P (sessions (snd (upload_precheck E req w))).
Proof.
  intros H. unfold upload_precheck.
  destruct (up_session_id req) as [sid|]; [|exact H].
  destruct (negb (PyStr.truthy sid)); [exact H|].
  pose proof (get_or_create_stable (Some sid) w H) as H1.
  destruct (get_or_create_session E (Some sid) w) as [sid' w1].
  cbn [snd] in H1.
  destruct (up_files req) as [files|]; [|exact H1].
  now destruct (negb (PyList.truthy files)).
Qed.

Lemma run_ops_stable (ops : list Op) (w : World) :
  P (sessions w) -> P (sessions (run_ops E ops w)).
Proof.
  unfold run_ops. revert w.
  induction ops as [|op ops IH]; intros w H; [exact H|].
  cbn [fold_left]. apply IH. destruct op; cbn [run_op].
  - unfold create_session.
    pose proof (get_or_create_stable None w H) as H1.
    now destruct (get_or_create_session E None w).
  - now apply query_stable.
  - exact H.
  - now apply clear_session_stable.
  - now apply upload_precheck_stable.
Qed.

End Store.

Lemma ids_stable :
  store_stable (fun m => forall k s, m !! k = Some s -> session_id s = k).
Proof.
  split.
  - intros m s H k s' Hl.
    destruct (decide (session_id s = k)) as [<-|Hne].
    + rewrite lookup_insert_eq in Hl. now injection Hl as <-.
    + rewrite lookup_insert_ne in Hl by exact Hne. now apply H.
  - intros m k f Hf H k' s' Hl.
    destruct (decide (k = k')) as [<-|Hne].
    + rewrite lookup_alter_eq in Hl.
      destruct (m !! k) as [s|] eqn:Hs; [|discriminate].
      injection Hl as <-. rewrite Hf. now apply H.
    + rewrite lookup_alter_ne in Hl by exact Hne. now apply H.
Qed.

Lemma presence_stable (k : string) :
  store_stable (fun m => is_Some (m !! k)).
Proof.
  split.
  - intros m s [s0 H].
    destruct (decide (session_id s = k)) as [<-|Hne].
    + rewrite lookup_insert_eq. eauto.
    + rewrite lookup_insert_ne by exact Hne. eauto.
  - intros m k' f _ [s0 H].
    destruct (decide (k' = k)) as [->|Hne].
    + rewrite lookup_alter_eq, H. cbn. eauto.
    + rewrite lookup_alter_ne by exact Hne. eauto.
Qed.

(** X16. Whatever sequence of session creations, queries, history
    reads, clears and upload checks the server handles, every session
    stays stored under its own id. *)
Theorem sessions_stored_under_their_ids (E : Env) (ops : list Op) (w : World) :
  keys_match_ids w -> keys_match_ids (run_ops E ops w).
Proof. intros H. exact (run_ops_stable E _ ids_stable ops w H). Qed.

Lemma sessions_stored_under_their_ids_witness :
  keys_match_ids
    (run_ops tie_env
       [OpCreate; OpQuery refund_request; OpClear (Some "s-1"); OpHistory None]
       (world_with (sample_session long_log))).
Proof.
  apply (sessions_stored_under_their_ids tie_env).
  intros k s H. unfold world_with in H. cbn [sessions] in H.
  apply lookup_singleton_Some in H as [<- <-]. reflexivity.
Defined.

(** X17. No endpoint removes a session: a session id that is known stays
    known through every sequence of session creations, queries, history
    reads, clears and upload checks. *)
Theorem sessions_are_never_removed
    (E : Env) (ops : list Op) (w : World) (sid : string) :
  known sid w = true -> known sid (run_ops E ops w) = true.
Proof.
  unfold known. intros H.
  assert (Hs : is_Some (sessions w !! sid))
    by (destruct (sessions w !! sid); [eauto | discriminate]).
  destruct (run_ops_stable E _ (presence_stable sid) ops w Hs) as [s ->].
  reflexivity.
Qed.

Lemma sessions_are_never_removed_witness :
  known "s-1"
    (run_ops tie_env
       [OpCreate; OpQuery refund_request; OpClear (Some "s-1"); OpHistory None]
       (world_with (sample_session long_log))) = true.
Proof.
  apply (sessions_are_never_removed tie_env). vm_compute. reflexivity.
Defined.

(** What a valid request does to the log of its session. *)
Lemma query_log_grows (E : Env) (req : Request) (w : World) :
  valid_request req = true ->
  exists s1 t rest,
    sessions (snd (get_or_create_session E (req_session_id req) w))
      !! request_session E req w = Some s1
    /\ (messages <$> sessions (snd (query E req w)) !! request_session E req w)
       = Some (messages s1 ++ mkMessage user (query_text req) t :: rest)%list.
Proof.
  intros Hv. destruct (request_session_present E req w) as (s1 & H1 & H2).
  exists s1. eexists.
  destruct (query_sessions E req w Hv)
    as [(e & _ & Hk)|(f & src & u & t & w3 & _ & K3 & Hk)]; rewrite Hk.
  - exists []. split; [exact H1|]. rewrite H2. reflexivity.
  - eexists. split; [exact H1|].
    rewrite (append_message_lookup E _ assistant f w3 _
               ltac:(rewrite K3; exact H2)).
    cbn [fmap option_fmap option_map push_message messages].
    now rewrite <- app_assoc.
Qed.

(** X18. A session made by [create_session] starts with an empty
    history, and a query that names the returned id works on that very
    session, provided the generated id is not the empty string: its log
    then starts with the user message of that query. *)
Theorem created_session_is_reused (E : Env) (w : World) (req : Request) :
  PyStr.truthy (fst (fst (create_session E w))) = true ->
  req_session_id req = Some (fst (fst (create_session E w))) ->
  valid_request req = true ->
  get_history (Some (fst (fst (create_session E w)))) (snd (create_session E w))
  = History [] None
  /\ request_session E req (snd (create_session E w))
     = fst (fst (create_session E w))
  /\ exists t rest,
       (messages <$> sessions (snd (query E req (snd (create_session E w))))
                       !! fst (fst (create_session E w)))
       = Some (mkMessage user (query_text req) t :: rest).
Proof.
  unfold create_session, get_or_create_session at 1 2 3 4 5 6 7.
  cbn [fst snd]. intros Ht Hsid Hv.
  set (sid := uuid4 E (uuid_calls w)) in *.
  set (w1 := mkWorld _ _ _ _ _) in *.
  assert (Hlook : sessions w1 !! sid
                  = Some (mkSession sid [] None (now_isoformat E (clock_reads w))))
    by apply lookup_insert_eq.
  assert (Hknown : known sid w1 = true) by (unfold known; now rewrite Hlook).
  assert (Hreq : get_or_create_session E (req_session_id req) w1 = (sid, w1))
    by (rewrite Hsid; now apply get_or_create_known).
  split; [|split].
  - unfold get_history. rewrite Ht, Hknown, Hlook. reflexivity.
  - unfold request_session. now rewrite Hreq.
  - destruct (query_log_grows E req w1 Hv) as (s1 & t & rest & H1 & H2).
    unfold request_session in H1, H2. rewrite Hreq in H1, H2.
    cbn [fst snd] in H1, H2. rewrite Hlook in H1. injection H1 as <-.
    exists t, rest. exact H2.
Qed.

Lemma created_session_is_reused_witness :
  request_session tie_env
    (mkRequest (Some "5f0c1b1e-7a52-4c1d-9b7e-0") (Some "What is the refund policy?"))
    (snd (create_session tie_env empty_world))
  = fst (fst (create_session tie_env empty_world)).
Proof.
  apply (created_session_is_reused tie_env empty_world
           (mkRequest (Some "5f0c1b1e-7a52-4c1d-9b7e-0")
                      (Some "What is the refund policy?")));
    reflexivity.
Defined.

Lemma clear_session_lookup (w : World) (sid : string) (s : Session) :
  PyStr.truthy sid = true ->
  sessions w !! sid = Some s ->
  clear_session (Some sid) w
  = (Cleared,
     mkWorld (alter reset_messages sid (sessions w))
             (uuid_calls w) (clock_reads w) (llm_calls w) (trace w))
  /\ alter reset_messages sid (sessions w) !! sid
     = Some (mkSession (session_id s) [] (collection_id s) (created_at s)).
Proof.
  intros Ht Hs.
  assert (Hk : known sid w = true) by (unfold known; now rewrite Hs).
  split.
  - unfold clear_session. now rewrite Ht, Hk.
  - rewrite lookup_alter_eq, Hs. reflexivity.
Qed.

(** X19. [clear_session] on a known, non-empty session id empties the
    message log of that session and nothing else: its id, its bound
    collection and its creation time stay, every other session stays,
    and the history read afterwards is empty. On an absent, empty or
    unknown id it answers 400 and changes nothing. *)
Theorem clear_session_resets (w : World) (session_id_given : option string) :
  (forall sid s,
     session_id_given = Some sid ->
     PyStr.truthy sid = true ->
     sessions w !! sid = Some s ->
     fst (clear_session session_id_given w) = Cleared
     /\ sessions (snd (clear_session session_id_given w)) !! sid
        = Some (mkSession (session_id s) [] (collection_id s) (created_at s))
     /\ (forall other, other <> sid ->
           sessions (snd (clear_session session_id_given w)) !! other
           = sessions w !! other)
     /\ get_history (Some sid) (snd (clear_session session_id_given w))
        = History [] (collection_id s))
  /\ ((session_id_given = None
       \/ session_id_given = Some ""
       \/ exists sid, session_id_given = Some sid /\ sessions w !! sid = None) ->
      clear_session session_id_given w = (ClearError 400 "Invalid session_id", w)).
Proof.
  split.
  - intros sid s -> Ht Hs.
    assert (Hk : known sid w = true) by (unfold known; now rewrite Hs).
    unfold clear_session. rewrite Ht, Hk. cbn [negb orb fst snd sessions].
    assert (Hl : alter reset_messages sid (sessions w) !! sid
                 = Some (mkSession (session_id s) [] (collection_id s) (created_at s)))
      by (rewrite lookup_alter_eq, Hs; reflexivity).
    split; [reflexivity|]. split; [exact Hl|]. split.
    + intros other Hne. now rewrite lookup_alter_ne by congruence.
    + unfold get_history, known. cbn [sessions]. rewrite Ht, Hl. reflexivity.
  - intros [->|[->|(sid & -> & Hs)]]; try reflexivity.
    unfold clear_session, known. rewrite Hs. cbn [negb].
    now rewrite orb_true_r.
Qed.

Lemma clear_session_resets_witness :
  get_history (Some "s-1")
    (snd (clear_session (Some "s-1") (world_with (sample_session long_log))))
  = History [] None.
Proof.
  destruct (proj1 (clear_session_resets (world_with (sample_session long_log))
                     (Some "s-1"))
              "s-1" (sample_session long_log))
    as (_ & _ & _ & H); [reflexivity | reflexivity | reflexivity | exact H].
Defined.

(** X20. The history endpoint reads what [query] logged: after an
    answered query on a session whose id is not the empty string, the
    history of that session is its earlier log followed by the user
    message and by the returned answer as an assistant message, with the
    bound collection unchanged. *)
Theorem history_after_answer
    (E : Env) (req : Request) (w w' : World)
    (a : string) (src : list Source) (used : bool) (ts : string) :
  query E req w = (JsonAnswer a src used ts, w') ->
  PyStr.truthy (request_session E req w) = true ->
  exists s1 t1 t2,
    sessions (snd (get_or_create_session E (req_session_id req) w))
      !! request_session E req w = Some s1
    /\ get_history (Some (request_session E req w)) w'
       = History (messages s1
                  ++ [mkMessage user (query_text req) t1;
                      mkMessage assistant a t2])%list
                 (collection_id s1).
Proof.
  intros H Ht. destruct (answered_session E req w w' a src used ts H)
    as (s1 & t1 & t2 & H1 & H2).
  exists s1, t1, t2. split; [exact H1|].
  unfold get_history, known. rewrite Ht, H2. reflexivity.
Qed.

Lemma history_after_answer_witness :
  exists s1 t1 t2,
    sessions (snd (get_or_create_session tie_env (req_session_id refund_request)
                     empty_world))
      !! request_session tie_env refund_request empty_world = Some s1
    /\ get_history (Some (request_session tie_env refund_request empty_world))
         (snd (query tie_env refund_request empty_world))
       = History (messages s1
                  ++ [mkMessage user (query_text refund_request) t1;
                      mkMessage assistant "Refunds take 14 days. [p.7] [p.2]" t2])%list
                 (collection_id s1).
Proof.
  apply (history_after_answer tie_env refund_request empty_world
           (snd (query tie_env refund_request empty_world))
           "Refunds take 14 days. [p.7] [p.2]"
           [mkSource "beta.pdf" 7; mkSource "alpha.pdf" 2] true
           "2025-01-01T00:00:00.3");
    vm_compute; reflexivity.
Defined.

(** X21. Clearing a session resets the conversation context: the first
    query on it afterwards hands the prompt a summary that holds the new
    question only. *)
Theorem summary_after_clear
    (E : Env) (w : World) (sid : string) (s : Session) (req : Request) :
  sessions w !! sid = Some s ->
  PyStr.truthy sid = true ->
  req_session_id req = Some sid ->
  request_summary E req (snd (clear_session (Some sid) w))
  = "User: " ++ PyStr.take 100 (query_text req).
Proof.
  intros Hs Ht Hreq.
  destruct (clear_session_lookup w sid s Ht Hs) as [Hc Hl].
  rewrite Hc. cbn [snd].
  set (w1 := mkWorld _ _ _ _ _) in *.
  change (alter reset_messages sid (sessions w)) with (sessions w1) in Hl.
  assert (Hk : known sid w1 = true) by (unfold known; now rewrite Hl).
  assert (Hg : get_or_create_session E (req_session_id req) w1 = (sid, w1))
    by (rewrite Hreq; now apply get_or_create_known).
  unfold request_summary, world_with_user_message, request_session.
  rewrite Hg. cbn [fst snd].
  rewrite (append_message_lookup E sid user _ w1 _ Hl).
  apply (conversation_summary_snoc _ [] (query_text req)
           (now_isoformat E (clock_reads w1))).
  reflexivity.
Qed.

Lemma summary_after_clear_witness :
  request_summary tie_env
    (mkRequest (Some "s-1") (Some "What is the refund policy?"))
    (snd (clear_session (Some "s-1") (world_with (sample_session long_log))))
  = "User: What is the refund policy?".
Proof.
  apply (summary_after_clear tie_env (world_with (sample_session long_log)) "s-1"
           (sample_session long_log)
           (mkRequest (Some "s-1") (Some "What is the refund policy?")));
    reflexivity.
Defined.

(** ** Document statistics and the collection list *)

Lemma dict_get_In {V} (k : string) (v : V) (d : Dict V) :
  PyDict.get k d = Some v -> In (k, v) d.
Proof.
  induction d as [|[k' v'] r IH]; cbn [PyDict.get]; [discriminate|].
  destruct (String.eqb k k') eqn:Hk.
  - apply String.eqb_eq in Hk. intros [= ->]. subst. now left.
  - intros H. right. now apply IH.
Qed.

Lemma dict_In_get {V} (k : string) (v : V) (d : Dict V) :
  List.NoDup (PyDict.keys d) -> In (k, v) d -> PyDict.get k d = Some v.
Proof.
  unfold PyDict.keys.
  induction d as [|[k' v'] r IH]; cbn [PyDict.get map fst]; intros Hn Hin;
    [destruct Hin|].
  inversion Hn as [|? ? Hnin Hr]; subst.
  destruct Hin as [[= -> ->]|Hin].
  - now rewrite String.eqb_refl.
  - destruct (String.eqb k k') eqn:Hk; [|now apply IH].
    apply String.eqb_eq in Hk. subst k'. exfalso. apply Hnin.
    apply in_map_iff. now exists (k, v).
Qed.

Lemma pages_by_doc_snoc (m : Dict ChunkMeta) (entry : string * ChunkMeta) :
  pages_by_doc (m ++ [entry]) = add_page (pages_by_doc m) entry.
Proof. unfold pages_by_doc. now rewrite fold_left_app. Qed.

Lemma pages_of_snoc (d : string) (m : Dict ChunkMeta) (entry : string * ChunkMeta) :
  pages_of d (m ++ [entry])
  = pages_of d m
    ∪ (if String.eqb (doc (snd entry)) d then {[page (snd entry)]} else ∅).
Proof.
  unfold pages_of. rewrite List.filter_app, map_app, list_to_set_app_L.
  cbn [List.filter]. destruct (String.eqb (doc (snd entry)) d); cbn [map].
  - f_equal. cbn. now rewrite union_empty_r_L.
  - reflexivity.
Qed.

Lemma pages_by_doc_nodup (m : Dict ChunkMeta) :
  List.NoDup (PyDict.keys (pages_by_doc m)).
Proof.
  induction m as [|entry m IH] using rev_ind; [constructor|].
  rewrite pages_by_doc_snoc. unfold add_page.
  destruct (PyDict.get (doc (snd entry)) (pages_by_doc m));
    now apply dict_set_nodup.
Qed.

(** The page set recorded for each document. *)
Lemma pages_by_doc_get (d : string) (m : Dict ChunkMeta) :
  PyDict.get d (pages_by_doc m)
  = if existsb (fun entry => String.eqb (doc (snd entry)) d) m
    then Some (pages_of d m) else None.
Proof.
  induction m as [|entry m IH] using rev_ind; [reflexivity|].
  rewrite pages_by_doc_snoc, existsb_app, pages_of_snoc. cbn [existsb].
  rewrite orb_false_r. unfold add_page.
  destruct (String.eqb (doc (snd entry)) d) eqn:Hd.
  - apply String.eqb_eq in Hd. rewrite Hd, orb_true_r.
    rewrite IH.
    destruct (existsb (fun e => String.eqb (doc (snd e)) d) m) eqn:Hex;
      rewrite dict_get_set, String.eqb_refl; [reflexivity|].
    f_equal. unfold pages_of.
    assert (Hnil : List.filter (fun e => String.eqb (doc (snd e)) d) m = []).
    { clear - Hex. induction m as [|e m IHm]; [reflexivity|].
      cbn [existsb List.filter] in *. apply orb_false_elim in Hex as [-> Hex].
      now apply IHm. }
    rewrite Hnil. cbn. now rewrite union_empty_l_L.
  - rewrite orb_false_r.
    assert (Hne : String.eqb d (doc (snd entry)) = false).
    { apply String.eqb_neq. apply String.eqb_neq in Hd. congruence. }
    assert (Hget : forall v,
               PyDict.get d (PyDict.set (doc (snd entry)) v (pages_by_doc m))
               = PyDict.get d (pages_by_doc m))
      by (intros v; now rewrite dict_get_set, Hne).
    destruct (PyDict.get (doc (snd entry)) (pages_by_doc m)); rewrite Hget, IH;
      destruct (existsb _ m); try reflexivity; f_equal;
      now rewrite union_empty_r_L.
Qed.

(** X22. The document statistics of an upload list every document of
    the store exactly once, and the page count of a document is the
    number of distinct pages on which its chunks lie. *)
Theorem doc_stats_counts (m : Dict ChunkMeta) :
  List.NoDup (map fst (doc_stats m))
  /\ forall d n,
       In (d, n) (doc_stats m)
       <-> (exists entry, In entry m /\ doc (snd entry) = d)
           /\ n = size (pages_of d m).
Proof.
  pose proof (pages_by_doc_nodup m) as Hn. split.
  - unfold doc_stats. rewrite map_map. exact Hn.
  - intros d n. unfold doc_stats. rewrite in_map_iff. split.
    + intros ([d' s] & [= -> <-] & Hin). cbn [fst snd].
      apply (dict_In_get _ _ _ Hn) in Hin. rewrite pages_by_doc_get in Hin.
      destruct (existsb (fun e => String.eqb (doc (snd e)) d) m) eqn:Hex;
        [|discriminate].
      injection Hin as <-. split; [|reflexivity].
      apply existsb_exists in Hex as (entry & He & Hd).
      apply String.eqb_eq in Hd. eauto.
    + intros [(entry & He & Hd) ->].
      exists (d, pages_of d m). split; [reflexivity|].
      apply dict_get_In. rewrite pages_by_doc_get.
      assert (Hex : existsb (fun e => String.eqb (doc (snd e)) d) m = true).
      { apply existsb_exists. exists entry. split; [exact He|].
        now apply String.eqb_eq. }
      now rewrite Hex.
Qed.

Lemma doc_stats_counts_witness :
  doc_stats sample_meta = [("guide.pdf", 1); ("faq.pdf", 1)]
  /\ In ("guide.pdf", 1) (doc_stats sample_meta).
Proof.
  split; [vm_compute; reflexivity|].
  apply (proj2 (doc_stats_counts sample_meta)). split.
  - exists ("0", mkChunkMeta "guide.pdf" 1 "Install the tool."). split;
      [now left | reflexivity].
  - vm_compute. reflexivity.
Defined.

(** X23. An upload creates its session before it looks at the files: a
    request that names an unknown session id and carries no file is
    answered 400 ["No files provided"], and yet a new, empty session has
    been stored under a generated id. Without a session id the answer is
    400 ["session_id required"] and nothing changes. *)
Theorem rejected_upload_still_creates_session
    (E : Env) (req : UploadRequest) (w : World) :
  (forall sid,
     up_session_id req = Some sid ->
     PyStr.truthy sid = true ->
     known sid w = false ->
     up_files req = None \/ up_files req = Some [] ->
     fst (upload_precheck E req w) = UploadRejected 400 "No files provided"
     /\ sessions (snd (upload_precheck E req w)) !! uuid4 E (uuid_calls w)
        = Some (mkSession (uuid4 E (uuid_calls w)) [] None
                          (now_isoformat E (clock_reads w)))
     /\ uuid_calls (snd (upload_precheck E req w)) = S (uuid_calls w))
  /\ (up_session_id req = None \/ up_session_id req = Some "" ->
      upload_precheck E req w = (UploadRejected 400 "session_id required", w)).
Proof.
  split.
  - intros sid Hs Ht Hk Hf. unfold upload_precheck.
    rewrite Hs, Ht. cbn [negb]. rewrite (get_or_create_unknown E sid w Hk).
    destruct Hf as [-> | ->]; cbn [PyList.truthy negb fst snd sessions uuid_calls];
      (split; [reflexivity|]; split; [apply lookup_insert_eq | reflexivity]).
  - intros [H|H]; unfold upload_precheck; now rewrite H.
Qed.

Lemma rejected_upload_still_creates_session_witness :
  fst (upload_precheck tie_env (mkUploadRequest (Some "abc") None) empty_world)
  = UploadRejected 400 "No files provided"
  /\ sessions (snd (upload_precheck tie_env (mkUploadRequest (Some "abc") None)
                      empty_world)) !! uuid4 tie_env 0
     = Some (mkSession (uuid4 tie_env 0) [] None (now_isoformat tie_env 0))
  /\ uuid_calls (snd (upload_precheck tie_env (mkUploadRequest (Some "abc") None)
                        empty_world)) = 1.
Proof.
  apply (proj1 (rejected_upload_still_creates_session tie_env
                  (mkUploadRequest (Some "abc") None) empty_world) "abc");
    [reflexivity | reflexivity | reflexivity | now left].
Defined.

Lemma document_names_fold (m : Dict ChunkMeta) (acc : gset string) (d : string) :
  d ∈ fold_left (fun docs entry => docs ∪ {[doc (snd entry)]}) m acc
  <-> d ∈ acc \/ exists entry, In entry m /\ doc (snd entry) = d.
Proof.
  revert acc. induction m as [|e m IH]; intros acc; cbn [fold_left].
  - split; [now left | intros [H|(entry & [] & _)]; exact H].
  - rewrite IH, elem_of_union, elem_of_singleton. split.
    + intros [[H|H]|(entry & Hin & Hd)].
      * now left.
      * right. exists e. split; [now left | congruence].
      * right. exists entry. split; [now right | exact Hd].
    + intros [H|(entry & [<-|Hin] & Hd)].
      * left. now left.
      * left. right. congruence.
      * right. eauto.
Qed.

Lemma list_collections_fold (E : Env) (l : list CollectionRef)
    (acc : list CollectionInfo) :
  fold_left
    (fun infos collection =>
       match vs_load E (coll_path collection) with
       | Ok vs =>
           (infos ++ [mkCollectionInfo (coll_id collection)
                        (document_names (meta vs)) (length (meta vs))])%list
       | Raise _ => infos
       end) l acc
  = (acc ++ omap (fun collection =>
                    match vs_load E (coll_path collection) with
                    | Ok vs =>
                        Some (mkCollectionInfo (coll_id collection)
                                (document_names (meta vs)) (length (meta vs)))
                    | Raise _ => None
                    end) l)%list.
Proof.
  revert acc. induction l as [|c l IH]; intros acc; cbn [fold_left omap list_omap].
  - now rewrite app_nil_r.
  - rewrite IH. destruct (vs_load E (coll_path c)); [|reflexivity].
    now rewrite <- app_assoc.
Qed.

(** X24. The collection list and the search agree: every collection
    that the search could load and query has an entry in the answer of
    [list_collections], with its id, the number of its chunks, and among
    its documents the document of each of its chunks; the count
    [total_collections] is the number of entries, and it is at most the
    number of collection folders. *)
Theorem searched_collections_are_listed
    (E : Env) (q : string) (topk_dense final_k : Z) :
  snd (list_collections E) = length (fst (list_collections E))
  /\ snd (list_collections E) <= length (get_all_collections E)
  /\ forall c vs results,
       In c (get_all_collections E) ->
       collection_results E q topk_dense final_k c = Some (vs, results) ->
       exists info,
         In info (fst (list_collections E))
         /\ info_id info = coll_id c
         /\ info_total_chunks info = length (meta vs)
         /\ forall cid m, PyDict.get cid (meta vs) = Some m ->
                          doc m ∈ info_documents info.
Proof.
  unfold list_collections. cbn [fst snd]. rewrite list_collections_fold.
  cbn [app]. split; [reflexivity|]. split.
  - induction (get_all_collections E) as [|c l IH]; [reflexivity|].
    cbn [omap list_omap length]. destruct (vs_load E (coll_path c));
      cbn [length]; lia.
  - intros c vs results Hc Hres. unfold collection_results in Hres.
    destruct (vs_load E (coll_path c)) as [vs'|e] eqn:Hload; [|discriminate].
    destruct (search_hybrid vs' q topk_dense final_k); [|discriminate].
    injection Hres as <- _.
    exists (mkCollectionInfo (coll_id c) (document_names (meta vs'))
                             (length (meta vs'))).
    split; [|split; [reflexivity|split; [reflexivity|]]].
    + apply list_elem_of_In, list_elem_of_omap. exists c.
      split; [now apply list_elem_of_In | now rewrite Hload].
    + intros cid m Hget. cbn [info_documents]. unfold document_names.
      apply document_names_fold. right. exists (cid, m).
      split; [now apply dict_get_In | reflexivity].
Qed.

Lemma searched_collections_are_listed_witness :
  exists info,
    In info (fst (list_collections tie_env))
    /\ info_id info = "alpha"
    /\ info_total_chunks info = 1
    /\ forall cid m,
         PyDict.get cid
           [("0", mkChunkMeta "alpha.pdf" 2 "Refunds are processed within 14 days.")]
         = Some m ->
         doc m ∈ info_documents info.
Proof.
  destruct (searched_collections_are_listed tie_env "refund policy" 20 5)
    as (_ & _ & H).
  apply (H (mkCollectionRef "alpha" "data/vector_store/alpha")
           (fixed_store
              [("0", mkChunkMeta "alpha.pdf" 2 "Refunds are processed within 14 days.")]
              [("0", 1 # 2)] (1 # 2))
           [("0", 1 # 2)]).
  - right. left. reflexivity.
  - reflexivity.
Defined.
